(** * pmail: composing and sending e-mail through one SMTP account

    A shallow embedding of [src/mail_client.py] (class [MailClient]),
    [config/email_config.py] (class [EmailConfig]), [src/scheduler.py]
    (class [EmailScheduler]) and [src/send_email_cli.py] (function [main]),
    with the properties of configuration, message composition, transport,
    scheduling and the command line proved about it.

    Conventions.
    - A Python [str] is a [string]; a character is a code point below 256.
    - [Optional[str]] is [option string]; Python truthiness ([if x], [not x],
      [x or y]) is written out by the [truthy_*] functions.
    - [Union[str, List[str]]] is the type [str_or_list].
    - What lies outside the repository is a parameter of the model:
      [mimetypes.guess_type], [pathlib] and the base64 encoder are the fields
      of a [Library]; the file system is a function from paths to
      [fs_entry]; the answers of the SMTP server are a [Server]; the checks
      of the [schedule] library are a [Section] variable.
    - A run of [send_email] yields how it ended and the trace of its
      [logger.error] calls and [smtplib] calls, oldest first. *)

From Stdlib Require Import String Ascii List Bool Arith ZArith Lia.
From Stdlib.Strings Require Import Byte.
From Equations Require Import Equations.
Import ListNotations.

Local Open Scope string_scope.
Local Open Scope list_scope.

Set Implicit Arguments.

(* ===================================================================== *)
(** * Python strings *)
(* ===================================================================== *)

Module PyStr.

(** [len(s) != 0], the truth value of a [str]. *)
Definition truthy (s : string) : bool :=
  match s with
  | EmptyString => false
  | String _ _ => true
  end.

(** The truth value of an [Optional[str]]: [None] and [""] are false. *)
Definition truthy_opt (o : option string) : bool :=
  match o with
  | None => false
  | Some s => truthy s
  end.

(** [sep.join(l)]. *)
Fixpoint join (sep : string) (l : list string) : string :=
  match l with
  | [] => ""
  | [x] => x
  | x :: rest => x ++ sep ++ join sep rest
  end.

(** [c.isspace()] for a code point below 256: TAB, LF, VT, FF, CR,
    FS, GS, RS, US, SPACE, NEL (0x85) and NBSP (0xA0). *)
Definition isspace (c : ascii) : bool :=
  let n := nat_of_ascii c in
  (((9 <=? n) && (n <=? 13)) || ((28 <=? n) && (n <=? 32))
   || (n =? 133) || (n =? 160))%nat.

(** [s.lstrip()]. *)
Fixpoint lstrip (s : string) : string :=
  match s with
  | EmptyString => EmptyString
  | String c rest => if isspace c then lstrip rest else s
  end.

(** [s.rstrip()]. *)
Fixpoint rstrip (s : string) : string :=
  match s with
  | EmptyString => EmptyString
  | String c rest =>
      match rstrip rest with
      | EmptyString => if isspace c then EmptyString else String c EmptyString
      | r => String c r
      end
  end.

(** [s.strip()]. *)
Definition strip (s : string) : string := rstrip (lstrip s).

(** [c in s]. *)
Fixpoint contains (c : ascii) (s : string) : bool :=
  match s with
  | EmptyString => false
  | String d rest => Ascii.eqb c d || contains c rest
  end.

(** [s.split(sep, 1)] unpacked into two names, as in
    [maintype, subtype = ctype.split('/', 1)]: [None] stands for the
    [ValueError] of unpacking a one-element list. *)
Fixpoint split_once (sep : ascii) (s : string) : option (string * string) :=
  match s with
  | EmptyString => None
  | String c rest =>
      if Ascii.eqb c sep then Some (EmptyString, rest)
      else match split_once sep rest with
           | Some (a, b) => Some (String c a, b)
           | None => None
           end
  end.

(** [c.lower()] for a code point below 256. *)
Definition lower_char (c : ascii) : ascii :=
  let n := nat_of_ascii c in
  if (((65 <=? n) && (n <=? 90))
      || ((192 <=? n) && (n <=? 222) && negb (n =? 215)))%nat
  then ascii_of_nat (n + 32) else c.

(** [s.lower()]. *)
Fixpoint lower (s : string) : string :=
  match s with
  | EmptyString => EmptyString
  | String c rest => String (lower_char c) (lower rest)
  end.

End PyStr.

(* ===================================================================== *)
(** * The regular expression of the plain-text fallback *)
(* ===================================================================== *)

Module Re.

Definition lt_char : ascii := "<"%char.
Definition gt_char : ascii := ">"%char.

(** The longest prefix without [">"], and what follows it: the greedy
    [[^>]+] can stop nowhere else, since the next pattern item is [">"]. *)
Fixpoint span_not_gt (s : string) : string * string :=
  match s with
  | EmptyString => (EmptyString, EmptyString)
  | String c rest =>
      if Ascii.eqb c gt_char then (EmptyString, s)
      else let (run, after) := span_not_gt rest in (String c run, after)
  end.

(** A match of [<[^>]+>] anchored at the start of [s]: the text after the
    match when there is one. *)
Definition match_tag (s : string) : option string :=
  match s with
  | EmptyString => None
  | String c rest =>
      if Ascii.eqb c lt_char then
        match span_not_gt rest with
        | (String _ _, String _ after) => Some after
        | _ => None
        end
      else None
  end.

(** A value together with the proof that it is the value of [a]. *)
Definition inspect {A : Type} (a : A) : {b : A | a = b} := exist _ a eq_refl.

(** [re.sub(r'<[^>]+>', '', s)]: scanning from the left, every match is
    dropped and scanning goes on after it; a character at which the
    pattern does not match is kept. *)
Equations sub_tags (s : string) : string by wf (String.length s) lt :=
  sub_tags EmptyString := EmptyString;
  sub_tags (String c rest) with inspect (match_tag (String c rest)) := {
    | exist _ (Some after) _ := sub_tags after;
    | exist _ None _ := String c (sub_tags rest) }.
Next Obligation.
  assert (Hspan : forall s : string,
             String.length (snd (span_not_gt s)) <= String.length s).
  { induction s as [|d s IH]; simpl; [lia|].
    destruct (Ascii.eqb d gt_char); simpl; [lia|].
    destruct (span_not_gt s); simpl in *; lia. }
  specialize (Hspan rest). simpl in e.
  destruct (Ascii.eqb c lt_char); [|discriminate].
  destruct (span_not_gt rest) as [run aft]; simpl in Hspan.
  destruct run; [discriminate|]. destruct aft; [discriminate|].
  injection e as <-. simpl in Hspan. lia.
Qed.

End Re.

(* ===================================================================== *)
(** * config/email_config.py *)
(* ===================================================================== *)

Module Config.

(** The attributes of an [EmailConfig] object. *)
Record EmailConfig : Type := {
  smtp_server : string;
  smtp_port : Z;
  gmail_address : string;
  gmail_password : string;
  default_sender : string;
  use_tls : bool
}.

(** [EmailConfig.is_configured]. *)
Definition is_configured (c : EmailConfig) : bool :=
  PyStr.truthy (gmail_address c) && PyStr.truthy (gmail_password c).

(** [EmailConfig.validate]: [(is_valid, error_message)]. *)
Definition validate (c : EmailConfig) : bool * option string :=
  if negb (PyStr.truthy (gmail_address c)) then
    (false, Some "GMAIL_ADDRESS is not set")
  else if negb (PyStr.truthy (gmail_password c)) then
    (false, Some "GMAIL_PASSWORD is not set")
  else if negb (PyStr.contains "@" (gmail_address c)) then
    (false, Some "GMAIL_ADDRESS must be a valid email address")
  else (true, None).

End Config.

(* ===================================================================== *)
(** * Values, messages, events *)
(* ===================================================================== *)

(** [Union[str, List[str]]]. *)
Inductive str_or_list : Type :=
| Str (s : string)
| Lst (l : list string).

(** The keyword arguments of [MailClient.send_email]. *)
Record SendRequest : Type := {
  to : str_or_list;
  subject : string;
  body : option string;
  body_html : option string;
  from_address : option string;
  cc : option str_or_list;
  bcc : option str_or_list;
  attachments : option str_or_list
}.

(** The exceptions the model tells apart.  [SMTPException] is
    [smtplib.SMTPException] or a subclass; [OSError] is an [OSError] that is
    not one of those (socket and file errors); [ValueError] as in Python. *)
Inductive exn : Type :=
| ValueError (detail : string)
| OSError (detail : string)
| SMTPException (detail : string).

(** [isinstance(e, smtplib.SMTPException)]. *)
Definition is_smtp_exception (e : exn) : bool :=
  match e with
  | SMTPException _ => true
  | _ => false
  end.

Definition header : Type := (string * string)%type.

(** An [email.message.Message] as [send_email] builds it.  The constructor
    stands for the class and its constructor arguments (which fix the
    [Content-Type]); [headers] are the headers added afterwards, by
    [msg[name] = value], [add_header] or [encode_base64], in that order. *)
#[warnings="-register-all"]
Inductive Message : Type :=
| MIMEText (text subtype : string) (headers : list header)
| MIMEMultipart (subtype : string) (parts : list Message) (headers : list header)
| MIMEBase (maintype subtype : string) (payload : string) (headers : list header).

(** [msg[name] = value]: the header is appended. *)
Definition set_item (msg : Message) (name value : string) : Message :=
  match msg with
  | MIMEText t st hs => MIMEText t st (hs ++ [(name, value)])
  | MIMEMultipart st ps hs => MIMEMultipart st ps (hs ++ [(name, value)])
  | MIMEBase mt st pl hs => MIMEBase mt st pl (hs ++ [(name, value)])
  end.

(** [msg.attach(part)] on a multipart; a leaf is left alone (the code never
    attaches to one). *)
Definition attach (msg part : Message) : Message :=
  match msg with
  | MIMEMultipart st ps hs => MIMEMultipart st (ps ++ [part]) hs
  | leaf => leaf
  end.

Definition headers_of (msg : Message) : list header :=
  match msg with
  | MIMEText _ _ hs | MIMEMultipart _ _ hs | MIMEBase _ _ _ hs => hs
  end.

Definition parts_of (msg : Message) : list Message :=
  match msg with
  | MIMEMultipart _ ps _ => ps
  | _ => []
  end.

(** Every header of the message and of the parts below it. *)
Fixpoint all_headers (msg : Message) : list header :=
  match msg with
  | MIMEText _ _ hs => hs
  | MIMEBase _ _ _ hs => hs
  | MIMEMultipart _ ps hs =>
      hs ++ (fix walk (l : list Message) : list header :=
               match l with
               | [] => []
               | m :: rest => all_headers m ++ walk rest
               end) ps
  end.

(** What a path names at the time of the call. [RegularFile None] is a
    regular file whose [open] or [read] raises. *)
Inductive fs_entry : Type :=
| Absent
| NotRegular
| RegularFile (content : option (list byte)).

(** The [logger.error] calls of [send_email], one constructor per call site:
    - [LogBodyMissing]: "Either body or body_html must be provided"
    - [LogAttachmentNotFound p]: "Attachment file not found: {p}"
    - [LogAttachmentNotAFile p]: "Attachment is not a file: {p}"
    - [LogAttachError p e]: "Error attaching file {p}: {e}"
    - [LogSMTPError s e]: "SMTP error occurred while sending email - Subject: '{s}': {e}"
    - [LogUnexpectedError s e]: "Unexpected error sending email - Subject: '{s}': {e}"
    The [info] and [debug] calls neither branch nor raise and are left out. *)
Inductive log_event : Type :=
| LogBodyMissing
| LogAttachmentNotFound (path : string)
| LogAttachmentNotAFile (path : string)
| LogAttachError (path : string) (e : exn)
| LogSMTPError (subj : string) (e : exn)
| LogUnexpectedError (subj : string) (e : exn).

(** The calls made on [smtplib]: the constructor [SMTP(host, port)], then the
    methods of the connection, then [__exit__] (which sends QUIT and closes). *)
Inductive smtp_event : Type :=
| Connect (host : string) (port : Z)
| StartTLS
| Login (user password : string)
| SendMessage (msg : Message) (to_addrs : list string)
| Quit.

Inductive event : Type :=
| Log (l : log_event)
| Net (n : smtp_event).

Definition is_net (e : event) : bool :=
  match e with
  | Net _ => true
  | Log _ => false
  end.

(** How the server answers each call of one connection: [Some e] is the
    exception that call raises. *)
Record Server : Type := {
  on_connect : option exn;
  on_starttls : option exn;
  on_login : option exn;
  on_send_message : option exn;
  on_quit : option exn
}.

(** What the Python library decides and the model takes as given. *)
Record Library : Type := {
  (** [mimetypes.guess_type(name)]: [(type, encoding)]. *)
  guess_type : string -> option string * option string;
  (** [str(Path(p))]. *)
  path_str : string -> string;
  (** [Path(p).name]. *)
  path_name : string -> string;
  (** The payload [encoders.encode_base64] leaves for the given bytes. *)
  b64encode : list byte -> string
}.

(* ===================================================================== *)
(** * Control flow: early return, exceptions, and the trace of effects *)
(* ===================================================================== *)

(** How a block of statements ends: it runs through ([Next]), executes
    [return b], or raises. *)
Inductive flow (A : Type) : Type :=
| Next (a : A)
| Return (b : bool)
| Raise (e : exn).

Arguments Next {A} a.
Arguments Return {A} b.
Arguments Raise {A} e.

(** A computation: how it ends and the events it caused, oldest first. *)
Definition M (A : Type) : Type := (flow A * list event)%type.

Definition ret {A : Type} (a : A) : M A := (Next a, []).

Definition bind {A B : Type} (m : M A) (k : A -> M B) : M B :=
  match m with
  | (Next a, t) => let (r, t') := k a in (r, t ++ t')
  | (Return b, t) => (Return b, t)
  | (Raise e, t) => (Raise e, t)
  end.

Definition emit (e : event) : M unit := (Next tt, [e]).
Definition raise {A : Type} (e : exn) : M A := (Raise e, []).
Definition return_ {A : Type} (b : bool) : M A := (Return b, []).

(** [try: m  except Exception as e: h e]. *)
Definition try_except {A : Type} (m : M A) (h : exn -> M A) : M A :=
  match m with
  | (Raise e, t) => let (r, t') := h e in (r, t ++ t')
  | done => done
  end.

(** [with ... : body], once the context manager has been entered: [exit_]
    runs however [body] ends; an exception it raises replaces the outcome of
    [body], otherwise that outcome stands. *)
Definition with_exit {A : Type} (body : M A) (exit_ : M unit) : M A :=
  let (r, t) := body in
  match exit_ with
  | (Raise e, t') => (Raise e, t ++ t')
  | (_, t') => (r, t ++ t')
  end.

Declare Scope m_scope.
Delimit Scope m_scope with m.
Notation "x <- c1 ;; c2" := (bind c1 (fun x => c2))
  (at level 61, c1 at next level, right associativity) : m_scope.
Notation "c1 ;; c2" := (bind c1 (fun _ => c2))
  (at level 61, right associativity) : m_scope.
Local Open Scope m_scope.

(* ===================================================================== *)
(** * src/mail_client.py *)
(* ===================================================================== *)

(** The truth value of an [Optional[Union[str, List[str]]]]. *)
Definition truthy_sl (v : option str_or_list) : bool :=
  match v with
  | None => false
  | Some (Str s) => PyStr.truthy s
  | Some (Lst []) => false
  | Some (Lst (_ :: _)) => true
  end.

(** [if isinstance(to, str): to = [to]]. *)
Definition to_list (v : str_or_list) : list string :=
  match v with
  | Str s => [s]
  | Lst l => l
  end.

(** [if v and isinstance(v, str): v = [v]] followed by the uses of [v], all
    under [if v:]: a false value ([None], [""], [[]]) stands for no entry. *)
Definition normalize (v : option str_or_list) : list string :=
  match v with
  | None => []
  | Some (Str s) => if PyStr.truthy s then [s] else []
  | Some (Lst l) => l
  end.

Definition placeholder : string :=
  "This email contains HTML content. Please view in an HTML-compatible email client.".

Definition missing_body_message : string :=
  "Either body (plain text) or body_html must be provided".

Definition octet_stream : string := "application/octet-stream".

(** The value of an [Optional[str]] known to be a [str]. *)
Definition str_of (o : option string) : string :=
  match o with
  | Some s => s
  | None => ""
  end.

(** Lines 90-96: the plain text made from the HTML body. *)
Definition fallback (html : string) : string :=
  let stripped := PyStr.strip (Re.sub_tags html) in
  if PyStr.truthy stripped then stripped else placeholder.

(** Lines 84-97: the body validation and the plain-text fallback; the result
    is the value of [body] from line 98 on. *)
Definition resolve_body (req : SendRequest) : M string :=
  if negb (PyStr.truthy_opt (body req)) && negb (PyStr.truthy_opt (body_html req))
  then
    emit (Log LogBodyMissing) ;;
    raise (ValueError missing_body_message)
  else if negb (PyStr.truthy_opt (body req)) && PyStr.truthy_opt (body_html req)
  then ret (fallback (str_of (body_html req)))
  else ret (str_of (body req)).

(** Lines 112-120: the validation loop over the attachment paths. *)
Fixpoint check_paths (fs : string -> fs_entry) (atts : list string)
  : M (list string) :=
  match atts with
  | [] => ret []
  | att_path :: rest =>
      match fs att_path with
      | Absent =>
          emit (Log (LogAttachmentNotFound att_path)) ;; return_ false
      | NotRegular =>
          emit (Log (LogAttachmentNotAFile att_path)) ;; return_ false
      | RegularFile _ =>
          paths <- check_paths fs rest ;;
          ret (att_path :: paths)
      end
  end.

(** Lines 141-148: the body part. *)
Definition body_part (plain : string) (html : option string) : Message :=
  if PyStr.truthy_opt html then
    attach (attach (MIMEMultipart "alternative" [] [])
                   (MIMEText plain "plain" []))
           (MIMEText (str_of html) "html" [])
  else MIMEText plain "plain" [].

Section MailClient.

Variable lib : Library.
Variable cfg : Config.EmailConfig.

(** Lines 157-159: the content type of an attachment. *)
Definition content_type (file_path : string) : string :=
  match guess_type lib (path_str lib file_path) with
  | (Some ctype, None) => ctype
  | _ => octet_stream
  end.

(** Lines 156-177, the [try] block of one attachment: the part made for
    [file_path]. *)
Definition make_attachment (fs : string -> fs_entry) (file_path : string)
  : M Message :=
  match PyStr.split_once "/" (content_type file_path) with
  | None => raise (ValueError "not enough values to unpack")
  | Some (maintype, subtype) =>
      match fs file_path with
      | RegularFile (Some data) =>
          let attachment := MIMEBase maintype subtype (b64encode lib data) [] in
          let attachment :=
            set_item attachment "Content-Transfer-Encoding" "base64" in
          let attachment :=
            set_item attachment "Content-Disposition"
                     ("attachment; filename=" ++ path_name lib file_path) in
          ret attachment
      | _ => raise (OSError file_path)
      end
  end.

(** Lines 154-182: the loop attaching the files to [msg]. *)
Fixpoint attach_files (fs : string -> fs_entry) (msg : Message)
         (paths : list string) : M Message :=
  match paths with
  | [] => ret msg
  | file_path :: rest =>
      msg' <- try_except
                (attachment <- make_attachment fs file_path ;;
                 ret (attach msg attachment))
                (fun e => emit (Log (LogAttachError file_path e)) ;;
                          return_ false) ;;
      attach_files fs msg' rest
  end.

(** Lines 136-196: the message structure. *)
Definition build_message (fs : string -> fs_entry) (plain : string)
           (html : option string) (attachment_paths : list string)
  : M Message :=
  match attachment_paths with
  | _ :: _ =>
      let msg := MIMEMultipart "mixed" [] [] in
      let msg := attach msg (body_part plain html) in
      attach_files fs msg attachment_paths
  | [] =>
      if PyStr.truthy_opt html then
        let msg := MIMEMultipart "alternative" [] [] in
        let msg := attach msg (MIMEText plain "plain" []) in
        let msg := attach msg (MIMEText (str_of html) "html" []) in
        ret msg
      else ret (MIMEText plain "plain" [])
  end.

(** Line 200: [from_address or config.default_sender or config.gmail_address]. *)
Definition sender (req : SendRequest) : string :=
  if PyStr.truthy_opt (from_address req) then str_of (from_address req)
  else if PyStr.truthy (Config.default_sender cfg) then Config.default_sender cfg
  else Config.gmail_address cfg.

(** Lines 199-204: the headers. *)
Definition set_headers (req : SendRequest) (msg : Message) : Message :=
  let msg := set_item msg "Subject" (subject req) in
  let msg := set_item msg "From" (sender req) in
  let msg := set_item msg "To" (PyStr.join ", " (to_list (to req))) in
  match normalize (cc req) with
  | [] => msg
  | cc_list => set_item msg "Cc" (PyStr.join ", " cc_list)
  end.

(** Lines 207-211: the recipients given to the transport. *)
Definition recipients (req : SendRequest) : list string :=
  to_list (to req) ++ normalize (cc req) ++ normalize (bcc req).

(** Lines 84-211: everything before the connection is opened; the result
    is the message and the recipient list handed to the transport. *)
Definition compose (fs : string -> fs_entry) (req : SendRequest)
  : M (Message * list string) :=
  plain <- resolve_body req ;;
  attachment_paths <- check_paths fs (normalize (attachments req)) ;;
  msg <- build_message fs plain (body_html req) attachment_paths ;;
  ret (set_headers req msg, recipients req).

(** One call on [smtplib]: the call is made, then it raises or not. *)
Definition smtp_call (ev : smtp_event) (answer : option exn) : M unit :=
  emit (Net ev) ;;
  match answer with
  | Some e => raise e
  | None => ret tt
  end.

(** Lines 216-227: the [with smtplib.SMTP(...) as server:] statement. *)
Definition transport (srv : Server) (msg : Message) (rcpts : list string)
  : M unit :=
  smtp_call (Connect (Config.smtp_server cfg) (Config.smtp_port cfg))
            (on_connect srv) ;;
  with_exit
    ((if Config.use_tls cfg then smtp_call StartTLS (on_starttls srv)
      else ret tt) ;;
     smtp_call (Login (Config.gmail_address cfg) (Config.gmail_password cfg))
               (on_login srv) ;;
     smtp_call (SendMessage msg rcpts) (on_send_message srv))
    (smtp_call Quit (on_quit srv)).

(** Lines 231-236: the two [except] clauses. *)
Definition handler (req : SendRequest) (e : exn) : M unit :=
  if is_smtp_exception e then
    emit (Log (LogSMTPError (subject req) e)) ;; return_ false
  else
    emit (Log (LogUnexpectedError (subject req) e)) ;; return_ false.

(** Lines 83-229: the [try] block. *)
Definition send_email_try (fs : string -> fs_entry) (srv : Server)
           (req : SendRequest) : M unit :=
  composed <- compose fs req ;;
  transport srv (fst composed) (snd composed) ;;
  return_ true.

(** [MailClient.send_email]. *)
Definition send_email (fs : string -> fs_entry) (srv : Server)
           (req : SendRequest) : M unit :=
  try_except (send_email_try fs srv req) (handler req).

(** [MailClient.send_email_to_ymail]. *)
Definition send_email_to_ymail (fs : string -> fs_entry) (srv : Server)
           (ymail_address : string) (req : SendRequest) : M unit :=
  send_email fs srv
    {| to := Str ymail_address; subject := subject req; body := body req;
       body_html := body_html req; from_address := from_address req;
       cc := cc req; bcc := bcc req; attachments := attachments req |}.

End MailClient.

(** [MailClient.__init__]: the configuration is kept or [ValueError] raised. *)
Definition MailClient_init (config : Config.EmailConfig)
  : exn + Config.EmailConfig :=
  if negb (Config.is_configured config) then
    inl (ValueError ("Gmail credentials not configured. " ++
                     "Set GMAIL_ADDRESS and GMAIL_PASSWORD environment variables."))
  else
    match Config.validate config with
    | (false, error_msg) =>
        inl (ValueError ("Invalid configuration: " ++ str_of error_msg))
    | (true, _) => inr config
    end.

(* ===================================================================== *)
(** * src/scheduler.py *)
(* ===================================================================== *)

Module Scheduler.

(** [schedule_custom], [run_pending], [run_continuously] and [get_jobs]
    register no e-mail job and are left out. *)

(** When a job is due, as asked of the [schedule] library:
    [every().day.at(t)], [getattr(every(), d).at(t)], [every(n).minutes]. *)
Inductive trigger : Type :=
| Daily (time_str : string)
| Weekly (day time_str : string)
| Minutes (interval_minutes : Z).

(** The three nested functions [send_email], each with the variables it
    closes over. *)
Inductive closure : Type :=
| DailySend (time_str : string) (to : str_or_list) (subject : string)
            (body body_html : option string)
| WeeklySend (day time_str : string) (to : str_or_list) (subject : string)
             (body body_html : option string)
| IntervalSend (interval_minutes : Z) (to : str_or_list) (subject : string)
               (body body_html : option string).

(** A job of the [schedule] library. *)
Record Job : Type := {
  job_trigger : trigger;
  job_func : closure
}.

(** [schedule.jobs], the registry of the library. *)
Definition registry : Type := list Job.

(** The keyword arguments with which the body of each closure calls
    [self.mail_client.send_email]; the parameters it does not pass take
    their default, [None]. *)
Definition call_of (f : closure) : SendRequest :=
  match f with
  | DailySend _ to subject body body_html =>
      {| to := to; subject := subject; body := body; body_html := body_html;
         from_address := None; cc := None; bcc := None; attachments := None |}
  | WeeklySend _ _ to subject body body_html =>
      {| to := to; subject := subject; body := body; body_html := body_html;
         from_address := None; cc := None; bcc := None; attachments := None |}
  | IntervalSend _ to subject body body_html =>
      {| to := to; subject := subject; body := body; body_html := body_html;
         from_address := None; cc := None; bcc := None; attachments := None |}
  end.

Section EmailScheduler.

(** Whether the [schedule] library takes the trigger; otherwise it raises
    before the job is registered. *)
Variable accepts : trigger -> bool.

(** [.do(job_func)]: the job is appended to the registry. *)
Definition register (t : trigger) (f : closure) (jobs : registry)
  : option registry :=
  if accepts t then Some (jobs ++ [{| job_trigger := t; job_func := f |}])
  else None.

(** [EmailScheduler.schedule_daily]. *)
Definition schedule_daily (time_str : string) (to : str_or_list)
           (subject : string) (body body_html : option string)
           (jobs : registry) : option registry :=
  register (Daily time_str)
           (DailySend time_str to subject body body_html) jobs.

(** [EmailScheduler.schedule_weekly]. *)
Definition schedule_weekly (day time_str : string) (to : str_or_list)
           (subject : string) (body body_html : option string)
           (jobs : registry) : option registry :=
  register (Weekly (PyStr.lower day) time_str)
           (WeeklySend day time_str to subject body body_html) jobs.

(** [EmailScheduler.schedule_interval]. *)
Definition schedule_interval (interval_minutes : Z) (to : str_or_list)
           (subject : string) (body body_html : option string)
           (jobs : registry) : option registry :=
  register (Minutes interval_minutes)
           (IntervalSend interval_minutes to subject body body_html) jobs.

(** [EmailScheduler.clear_all_jobs]. *)
Definition clear_all_jobs (jobs : registry) : registry := [].

(** The registries the three scheduling methods and [clear_all_jobs] can
    produce, starting from the empty one. *)
Inductive reachable : registry -> Prop :=
| reach_empty : reachable []
| reach_daily jobs jobs' time_str to subject body body_html :
    reachable jobs ->
    schedule_daily time_str to subject body body_html jobs = Some jobs' ->
    reachable jobs'
| reach_weekly jobs jobs' day time_str to subject body body_html :
    reachable jobs ->
    schedule_weekly day time_str to subject body body_html jobs = Some jobs' ->
    reachable jobs'
| reach_interval jobs jobs' interval_minutes to subject body body_html :
    reachable jobs ->
    schedule_interval interval_minutes to subject body body_html jobs
    = Some jobs' ->
    reachable jobs'
| reach_clear jobs :
    reachable jobs -> reachable (clear_all_jobs jobs).

End EmailScheduler.

(** Running a job: the closure calls [send_email] on the scheduler's mail
    client; the result of the call is dropped. *)
Definition run_job (lib : Library) (cfg : Config.EmailConfig)
           (fs : string -> fs_entry) (srv : Server) (j : Job) : list event :=
  snd (send_email lib cfg fs srv (call_of (job_func j))).

End Scheduler.

(* ===================================================================== *)
(** * Reading messages and traces *)
(* ===================================================================== *)

(** The plain text in force from line 98 on, for a request that passed the
    body validation. *)
Definition plain_text (req : SendRequest) : string :=
  if PyStr.truthy_opt (body req) then str_of (body req)
  else fallback (str_of (body_html req)).

(** A [multipart/alternative] part holding the plain text, then the HTML. *)
Definition alternative (plain html : string) (hs : list header) : Message :=
  MIMEMultipart "alternative"
                [MIMEText plain "plain" []; MIMEText html "html" []] hs.

(** The part [send_email] makes for the attachment at [file_path]. *)
Definition is_attachment_of (lib : Library) (fs : string -> fs_entry)
           (file_path : string) (part : Message) : Prop :=
  exists (maintype subtype : string) (data : list byte),
    content_type lib file_path = (maintype ++ "/" ++ subtype)%string
    /\ PyStr.contains "/" maintype = false
    /\ fs file_path = RegularFile (Some data)
    /\ part = MIMEBase maintype subtype (b64encode lib data)
                       [("Content-Transfer-Encoding", "base64");
                        ("Content-Disposition",
                         ("attachment; filename=" ++ path_name lib file_path)%string)].

(** The path names a regular file. *)
Definition regular (fs : string -> fs_entry) (p : string) : Prop :=
  exists content, fs p = RegularFile content.

(** The body part of a message: the plain text alone, or the alternative of
    plain text and HTML when there is HTML. *)
Definition body_shape (plain : string) (html : option string) : Message :=
  if PyStr.truthy_opt html then alternative plain (str_of html) []
  else MIMEText plain "plain" [].

(** The structure of the message composed for [req], whatever its headers. *)
Definition has_structure (lib : Library) (fs : string -> fs_entry)
           (req : SendRequest) (msg : Message) : Prop :=
  match normalize (attachments req) with
  | [] =>
      if PyStr.truthy_opt (body_html req)
      then exists hs,
          msg = alternative (plain_text req) (str_of (body_html req)) hs
      else exists hs, msg = MIMEText (plain_text req) "plain" hs
  | paths =>
      exists atts hs,
        msg = MIMEMultipart "mixed"
                (body_shape (plain_text req) (body_html req) :: atts) hs
        /\ Forall2 (is_attachment_of lib fs) paths atts
  end.

(** The headers [send_email] sets on the message, in order. *)
Definition expected_headers (cfg : Config.EmailConfig) (req : SendRequest)
  : list header :=
  [("Subject", subject req);
   ("From", sender cfg req);
   ("To", PyStr.join ", " (to_list (to req)))]
  ++ match normalize (cc req) with
     | [] => []
     | cc_list => [("Cc", PyStr.join ", " cc_list)]
     end.

(** The parts of the message made by [MIMEBase]. *)
Definition attachment_parts (msg : Message) : list Message :=
  filter (fun part => match part with MIMEBase _ _ _ _ => true | _ => false end)
         (parts_of msg).

(** The outcome of the transport phase for a composed message: the [with]
    statement, [return True], and the [except] clauses around them. *)
Definition deliver (cfg : Config.EmailConfig) (srv : Server)
           (req : SendRequest) (msg : Message) (rcpts : list string) : M unit :=
  try_except (transport cfg srv msg rcpts ;; return_ true) (handler req).

(** Whether a [MIMEBase] part occurs in the message. *)
Fixpoint has_attachment (msg : Message) : bool :=
  match msg with
  | MIMEText _ _ _ => false
  | MIMEBase _ _ _ _ => true
  | MIMEMultipart _ ps _ =>
      (fix any (l : list Message) : bool :=
         match l with
         | [] => false
         | m :: rest => has_attachment m || any rest
         end) ps
  end.

(** The text of the first [text/plain] part, in document order. *)
Fixpoint first_plain (msg : Message) : option string :=
  match msg with
  | MIMEText t st _ => if String.eqb st "plain" then Some t else None
  | MIMEBase _ _ _ _ => None
  | MIMEMultipart _ ps _ =>
      (fix first (l : list Message) : option string :=
         match l with
         | [] => None
         | m :: rest =>
             match first_plain m with
             | Some t => Some t
             | None => first rest
             end
         end) ps
  end.

(** The network calls of a trace. *)
Definition net_events (t : list event) : list smtp_event :=
  flat_map (fun e => match e with Net n => [n] | Log _ => [] end) t.

(** The [logger.error] calls of a trace. *)
Definition log_events (t : list event) : list log_event :=
  flat_map (fun e => match e with Log l => [l] | Net _ => [] end) t.

(** The [(message, recipients)] pairs given to [send_message]. *)
Definition sent (t : list event) : list (Message * list string) :=
  flat_map (fun e => match e with
                     | Net (SendMessage m r) => [(m, r)]
                     | _ => []
                     end) t.

(** The number of connections opened. *)
Definition connections (t : list event) : nat :=
  length (filter (fun e => match e with Net (Connect _ _) => true | _ => false end) t).

(** A call of the transport phase raises: the connection, the TLS upgrade
    (when enabled), the login or the transmission. *)
Definition transport_fails (cfg : Config.EmailConfig) (srv : Server) : Prop :=
  on_connect srv <> None
  \/ (Config.use_tls cfg = true /\ on_starttls srv <> None)
  \/ on_login srv <> None
  \/ on_send_message srv <> None.

(** [req] with another plain-text body. *)
Definition with_body (b : option string) (req : SendRequest) : SendRequest :=
  {| to := to req; subject := subject req; body := b;
     body_html := body_html req; from_address := from_address req;
     cc := cc req; bcc := bcc req; attachments := attachments req |}.

(* ===================================================================== *)
(** * A sample environment *)
(* ===================================================================== *)

Module Sample.

Definition alphabet : string :=
  "ABCDEFGHIJKLMNOPQRSTUVWXYZabcdefghijklmnopqrstuvwxyz0123456789+/".

Definition digit (n : N) : ascii :=
  match String.get (N.to_nat n) alphabet with
  | Some c => c
  | None => "="%char
  end.

(** Base64 of a byte string, on one line. *)
Fixpoint base64 (l : list byte) : string :=
  match l with
  | [] => ""
  | [a] =>
      let n := (Byte.to_N a * 16)%N in
      String (digit (n / 64)) (String (digit (n mod 64)) "==")
  | [a; b] =>
      let n := ((Byte.to_N a * 256 + Byte.to_N b) * 4)%N in
      String (digit (n / 4096))
        (String (digit (n / 64 mod 64)) (String (digit (n mod 64)) "="))
  | a :: b :: c :: rest =>
      let n := ((Byte.to_N a * 256 + Byte.to_N b) * 256 + Byte.to_N c)%N in
      String (digit (n / 262144))
        (String (digit (n / 4096 mod 64))
           (String (digit (n / 64 mod 64))
              (String (digit (n mod 64)) (base64 rest))))
  end.

(** Whether [s] ends with [suffix]. *)
Definition endswith (suffix s : string) : bool :=
  let n := String.length s in
  let k := String.length suffix in
  (k <=? n)%nat && String.eqb (String.substring (n - k) k s) suffix.

(** The text after the last ["/"]. *)
Fixpoint basename (s : string) : string :=
  match s with
  | EmptyString => EmptyString
  | String c rest =>
      if PyStr.contains "/" rest then basename rest
      else if Ascii.eqb c "/" then rest else s
  end.

Definition lib : Library :=
  {| guess_type := fun name =>
       if endswith ".txt" name then (Some "text/plain", None)
       else if endswith ".pdf" name then (Some "application/pdf", None)
       else if endswith ".tar.gz" name then (Some "application/x-tar", Some "gzip")
       else (None, None);
     path_str := fun p => p;
     path_name := basename;
     b64encode := base64 |}.

Definition cfg : Config.EmailConfig :=
  {| Config.smtp_server := "smtp.gmail.com";
     Config.smtp_port := 587;
     Config.gmail_address := "me@gmail.com";
     Config.gmail_password := "app-password";
     Config.default_sender := "me@gmail.com";
     Config.use_tls := true |}.

(** A file system with two regular files and a directory. *)
Definition fs (p : string) : fs_entry :=
  if String.eqb p "notes.txt" then RegularFile (Some [x68; x69; x0a])
  else if String.eqb p "data/blob.bin" then RegularFile (Some [x00; xff])
  else if String.eqb p "data" then NotRegular
  else Absent.

(** A server on which every call succeeds. *)
Definition server_ok : Server :=
  {| on_connect := None; on_starttls := None; on_login := None;
     on_send_message := None; on_quit := None |}.

(** A server that refuses the login. *)
Definition server_bad_login : Server :=
  {| on_connect := None; on_starttls := None;
     on_login := Some (SMTPException "535 authentication failed");
     on_send_message := None; on_quit := None |}.

Definition request (b h : option string) (atts : option str_or_list)
  : SendRequest :=
  {| to := Str "a@x.com"; subject := "Hi"; body := b; body_html := h;
     from_address := None; cc := Some (Lst ["c@x.com"]);
     bcc := Some (Str "b@x.com"); attachments := atts |}.

(** The message and the recipient list of a finished composition. *)
Definition message_of (c : M (Message * list string)) : Message :=
  match fst c with
  | Next (msg, _) => msg
  | _ => MIMEText "" "" []
  end.

Definition rcpts_of (c : M (Message * list string)) : list string :=
  match fst c with
  | Next (_, rcpts) => rcpts
  | _ => []
  end.

(** The schedule library taking every trigger. *)
Definition accepts (t : Scheduler.trigger) : bool := true.

End Sample.

(* ===================================================================== *)
(** * Loading the configuration and building the client *)
(* ===================================================================== *)

Section Environment.

(** [os.getenv(name)]: the environment of the process. *)
Variable getenv : string -> option string.

(** [int(s)] on a [str]; [None] stands for its [ValueError]. *)
Variable parse_int : string -> option Z.

(** [os.getenv(name, default)]. *)
Definition getenv_default (name default : string) : string :=
  match getenv name with
  | Some value => value
  | None => default
  end.

(** [EmailConfig.__init__]: the attributes read from the environment; the
    only statement that can raise is the [int(...)] of the port. *)
Definition EmailConfig_init : exn + Config.EmailConfig :=
  let smtp_server := getenv_default "SMTP_SERVER" "smtp.gmail.com" in
  match parse_int (getenv_default "SMTP_PORT" "587") with
  | None => inl (ValueError "invalid literal for int() with base 10")
  | Some smtp_port =>
      let gmail_address := getenv_default "GMAIL_ADDRESS" "" in
      let gmail_password := getenv_default "GMAIL_PASSWORD" "" in
      let default_sender := getenv_default "DEFAULT_SENDER" gmail_address in
      let use_tls :=
        String.eqb (PyStr.lower (getenv_default "USE_TLS" "true")) "true" in
      inr {| Config.smtp_server := smtp_server;
             Config.smtp_port := smtp_port;
             Config.gmail_address := gmail_address;
             Config.gmail_password := gmail_password;
             Config.default_sender := default_sender;
             Config.use_tls := use_tls |}
  end.

(** [MailClient()], without a configuration: [config or EmailConfig()] builds
    one from the environment, then [__init__] checks it. *)
Definition MailClient_new : exn + Config.EmailConfig :=
  match EmailConfig_init with
  | inl e => inl e
  | inr config => MailClient_init config
  end.

End Environment.

(** The [logger.error] calls of [MailClient.__init__] (lines 44 and 52), as
    the messages logged. *)
Definition MailClient_init_errors (config : Config.EmailConfig) : list string :=
  if negb (Config.is_configured config) then
    ["Gmail credentials not configured"]
  else
    match Config.validate config with
    | (false, error_msg) =>
        [("Invalid configuration: " ++ str_of error_msg)%string]
    | (true, _) => []
    end.

(* ===================================================================== *)
(** * src/send_email_cli.py *)
(* ===================================================================== *)

Module Cli.

(** The namespace [parser.parse_args()] returns.  [-t] has [nargs='+'];
    [-a] has [nargs='*'] and the default [[]]; [-c] and [--bcc] have
    [nargs='+'] and are [None] when not given. *)
Record Args : Type := {
  arg_to : list string;
  arg_subject : string;
  arg_body : option string;
  arg_html : option string;
  arg_attachments : list string;
  arg_cc : option (list string);
  arg_bcc : option (list string);
  arg_from_address : option string;
  arg_ymail : bool
}.

(** What [main] reports, one constructor for each place that prints (and,
    where it does, logs the same at error level):
    - [NotConfigured]: lines 117-119
    - [AttachmentNotFound p]: lines 134-135
    - [AttachmentNotAFile p]: lines 138-139
    - [FoundAttachments l]: line 142
    - [BodyMissing]: lines 146-147
    - [Sending to subject]: lines 152-154
    - [ShowCc l], [ShowBcc l], [ShowAttachments n]: lines 156, 158, 160
    - [Success]: line 189
    - [Failed]: lines 192-193
    - [ConfigurationError e]: lines 197-198
    - [UnexpectedError e]: lines 201-202 *)
Inductive output : Type :=
| NotConfigured
| AttachmentNotFound (path : string)
| AttachmentNotAFile (path : string)
| FoundAttachments (paths : list string)
| BodyMissing
| Sending (to : list string) (subject : string)
| ShowCc (cc : list string)
| ShowBcc (bcc : list string)
| ShowAttachments (count : nat)
| Success
| Failed
| ConfigurationError (e : exn)
| UnexpectedError (e : exn).

(** What happens during [main], oldest first: its own reports, the errors
    [MailClient.__init__] logs, and the events of the call of the client. *)
Inductive cli_event : Type :=
| Out (o : output)
| InitError (message : string)
| Sent (e : event).

(** The truth value of an [Optional[List[str]]]. *)
Definition truthy_list (v : option (list string)) : bool :=
  match v with
  | Some (_ :: _) => true
  | _ => false
  end.

Definition list_of (v : option (list string)) : list string :=
  match v with
  | Some l => l
  | None => []
  end.

(** Line 127: [args.attachments if args.attachments else None]. *)
Definition attachments_of (args : Args) : option str_or_list :=
  match arg_attachments args with
  | [] => None
  | l => Some (Lst l)
  end.

(** The keyword arguments of the call of lines 176-185. *)
Definition request_of (args : Args) : SendRequest :=
  {| to := Lst (arg_to args);
     subject := arg_subject args;
     body := arg_body args;
     body_html := arg_html args;
     from_address := arg_from_address args;
     cc := option_map Lst (arg_cc args);
     bcc := option_map Lst (arg_bcc args);
     attachments := attachments_of args |}.

(** Lines 196-203: the two [except] clauses; [sys.exit] is not caught by
    them, a [SystemExit] being no [Exception]. *)
Definition except_clauses (e : exn) : Z * list cli_event :=
  match e with
  | ValueError _ => (1%Z, [Out (ConfigurationError e)])
  | _ => (1%Z, [Out (UnexpectedError e)])
  end.

(** How [parser.parse_args()] ends: it returns the namespace, or it ends
    the process itself by [sys.exit], with status 2 after reporting a usage
    error (a required option missing, an unknown option, ...) and with
    status 0 after printing the version ([-v]) or the help ([-h]). *)
Inductive parse_outcome : Type :=
| Parsed (args : Args)
| UsageError
| VersionOrHelp.

Section Main.

Variable lib : Library.
Variable getenv : string -> option string.
Variable parse_int : string -> option Z.
Variable fs : string -> fs_entry.
Variable srv : Server.

(** [argparse] on [sys.argv[1:]]. *)
Variable parse_args : list string -> parse_outcome.

(** Lines 131-140: the first attachment the loop refuses, if any. *)
Fixpoint check_attachments (paths : list string) : option output :=
  match paths with
  | [] => None
  | att_path :: rest =>
      match fs att_path with
      | Absent => Some (AttachmentNotFound att_path)
      | NotRegular => Some (AttachmentNotAFile att_path)
      | RegularFile _ => check_attachments rest
      end
  end.

(** Lines 152-160: the summary printed before sending. *)
Definition summary (args : Args) : list cli_event :=
  [Out (Sending (arg_to args) (arg_subject args))]
  ++ (if truthy_list (arg_cc args) then [Out (ShowCc (list_of (arg_cc args)))]
      else [])
  ++ (if truthy_list (arg_bcc args) then [Out (ShowBcc (list_of (arg_bcc args)))]
      else [])
  ++ match arg_attachments args with
     | [] => []
     | l => [Out (ShowAttachments (length l))]
     end.

(** Lines 162-185: the call of the client. *)
Definition call_client (client : Config.EmailConfig) (args : Args) : M unit :=
  match arg_ymail args, arg_to args with
  | true, [ymail_address] =>
      send_email_to_ymail lib client fs srv ymail_address (request_of args)
  | _, _ => send_email lib client fs srv (request_of args)
  end.

(** [main], after [parse_args]: the exit status and what happened. *)
Definition main (args : Args) : Z * list cli_event :=
  match EmailConfig_init getenv parse_int with
  | inl e => except_clauses e
  | inr config =>
      if negb (Config.is_configured config) then (1%Z, [Out NotConfigured])
      else
        match MailClient_new getenv parse_int with
        | inl e =>
            let (status, report) := except_clauses e in
            (status, map InitError (MailClient_init_errors config) ++ report)
        | inr client =>
            match check_attachments (arg_attachments args) with
            | Some refusal => (1%Z, [Out refusal])
            | None =>
                let found :=
                  match arg_attachments args with
                  | [] => []
                  | l => [Out (FoundAttachments l)]
                  end in
                if negb (PyStr.truthy_opt (arg_body args))
                   && negb (PyStr.truthy_opt (arg_html args))
                then (1%Z, found ++ [Out BodyMissing])
                else
                  let (outcome, events) := call_client client args in
                  let before := found ++ summary args ++ map Sent events in
                  match outcome with
                  | Return true => (0%Z, before ++ [Out Success])
                  | Return false | Next _ => (1%Z, before ++ [Out Failed])
                  | Raise e =>
                      let (status, report) := except_clauses e in
                      (status, before ++ report)
                  end
            end
        end
  end.

(** [main], from the command line: [parse_args] (line 111, before the
    [try]), then the rest.  When [parse_args] ends the process nothing else
    of [main] runs. *)
Definition main_argv (argv : list string) : Z * list cli_event :=
  match parse_args argv with
  | Parsed args => main args
  | UsageError => (2%Z, [])
  | VersionOrHelp => (0%Z, [])
  end.

End Main.

(** The network calls made during [main]. *)
Definition network (t : list cli_event) : list smtp_event :=
  flat_map (fun e => match e with
                     | Sent (Net n) => [n]
                     | _ => []
                     end) t.

(** [args] with another value of [--ymail]. *)
Definition with_ymail (flag : bool) (args : Args) : Args :=
  {| arg_to := arg_to args; arg_subject := arg_subject args;
     arg_body := arg_body args; arg_html := arg_html args;
     arg_attachments := arg_attachments args; arg_cc := arg_cc args;
     arg_bcc := arg_bcc args; arg_from_address := arg_from_address args;
     arg_ymail := flag |}.

End Cli.

(* ===================================================================== *)
(** * More ways of reading a run *)
(* ===================================================================== *)

(** [send_email] can make a part of the file at [file_path]: it can be read
    and its content type splits at a ["/"]. *)
Definition attachable (lib : Library) (fs : string -> fs_entry)
           (file_path : string) : Prop :=
  (exists data, fs file_path = RegularFile (Some data))
  /\ PyStr.contains "/" (content_type lib file_path) = true.

(** No call of the connection raises: the constructor, [starttls] when TLS
    is on, [login], [send_message] and the closing [QUIT]. *)
Definition server_accepts (cfg : Config.EmailConfig) (srv : Server) : Prop :=
  on_connect srv = None
  /\ (Config.use_tls cfg = true -> on_starttls srv = None)
  /\ on_login srv = None
  /\ on_send_message srv = None
  /\ on_quit srv = None.

(** The calls on [smtplib] of a delivery without failure. *)
Definition smtp_session (cfg : Config.EmailConfig) (msg : Message)
           (rcpts : list string) : list smtp_event :=
  [Connect (Config.smtp_server cfg) (Config.smtp_port cfg)]
  ++ (if Config.use_tls cfg then [StartTLS] else [])
  ++ [Login (Config.gmail_address cfg) (Config.gmail_password cfg);
      SendMessage msg rcpts;
      Quit].

(** The log entry an exception leaves when it reaches the [except] clauses
    of [send_email]. *)
Definition failure_entry (req : SendRequest) (e : exn) : log_event :=
  if is_smtp_exception e then LogSMTPError (subject req) e
  else LogUnexpectedError (subject req) e.

(** [req] with other recipients. *)
Definition with_to (t : str_or_list) (req : SendRequest) : SendRequest :=
  {| to := t; subject := subject req; body := body req;
     body_html := body_html req; from_address := from_address req;
     cc := cc req; bcc := bcc req; attachments := attachments req |}.

Module Sample2.

(** An environment with the credentials set and nothing else. *)
Definition getenv (name : string) : option string :=
  if String.eqb name "GMAIL_ADDRESS" then Some "me@gmail.com"
  else if String.eqb name "GMAIL_PASSWORD" then Some "app-password"
  else None.

(** The same with [USE_TLS=1]. *)
Definition getenv_tls_1 (name : string) : option string :=
  if String.eqb name "USE_TLS" then Some "1" else getenv name.

(** Decimal numerals without sign, for the sample. *)
Definition parse_int (s : string) : option Z :=
  match s with
  | EmptyString => None
  | _ =>
      (fix digits (s : string) (acc : Z) : option Z :=
         match s with
         | EmptyString => Some acc
         | String c rest =>
             let n := nat_of_ascii c in
             if ((48 <=? n) && (n <=? 57))%nat
             then digits rest (acc * 10 + Z.of_nat (n - 48))%Z
             else None
         end) s 0%Z
  end.

Definition args (b h : option string) (atts : list string) (ymail : bool)
  : Cli.Args :=
  {| Cli.arg_to := ["a@x.com"]; Cli.arg_subject := "Hi";
     Cli.arg_body := b; Cli.arg_html := h; Cli.arg_attachments := atts;
     Cli.arg_cc := None; Cli.arg_bcc := Some ["b@x.com"];
     Cli.arg_from_address := None; Cli.arg_ymail := ymail |}.

(** A server on which the TLS upgrade fails. *)
Definition server_bad_tls : Server :=
  {| on_connect := None; on_starttls := Some (SMTPException "454 TLS not available");
     on_login := None; on_send_message := None; on_quit := None |}.

(** A server on which the transmission and the closing QUIT both fail. *)
Definition server_bad_send_and_quit : Server :=
  {| on_connect := None; on_starttls := None; on_login := None;
     on_send_message := Some (SMTPException "554 rejected");
     on_quit := Some (OSError "connection reset") |}.

(** A file system with an unreadable regular file. *)
Definition fs_locked (p : string) : fs_entry :=
  if String.eqb p "locked.txt" then RegularFile None else Sample.fs p.

End Sample2.
(* ===================================================================== *)
(** * Strings and the tag pattern *)
(* ===================================================================== *)

#[local] Arguments Ascii.eqb : simpl never.

Lemma truthy_opt_some (o : option string) :
  PyStr.truthy_opt o = true -> exists s, o = Some s /\ s <> "".
Proof.
  destruct o as [[|c s]|]; simpl; try discriminate.
  intros _. exists (String c s). split; [reflexivity|discriminate].
Qed.

Lemma split_once_spec (sep : ascii) (s a b : string) :
  PyStr.split_once sep s = Some (a, b) ->
  s = (a ++ String sep b)%string /\ PyStr.contains sep a = false.
Proof.
  revert a. induction s as [|c rest IH]; simpl; intros a; [discriminate|].
  destruct (Ascii.eqb c sep) eqn:E.
  - apply Ascii.eqb_eq in E. subst c. intros [= <- <-]. now split.
  - destruct (PyStr.split_once sep rest) as [[a' b']|]; [|discriminate].
    intros [= <- <-]. destruct (IH a' eq_refl) as [-> Hno].
    split; [reflexivity|]. simpl. now rewrite Ascii.eqb_sym, E.
Qed.

Module ReFacts.
Import Re.

Lemma sub_tags_cons (c : ascii) (rest : string) :
  sub_tags (String c rest)
  = match match_tag (String c rest) with
    | Some after => sub_tags after
    | None => String c (sub_tags rest)
    end.
Proof.
  simp sub_tags.
  destruct (inspect (match_tag (String c rest))) as [[after|] e];
    cbn [sub_tags_unfold_clause_2]; rewrite e; reflexivity.
Qed.

Lemma span_not_gt_spec (s : string) :
  s = (fst (span_not_gt s) ++ snd (span_not_gt s))%string
  /\ PyStr.contains gt_char (fst (span_not_gt s)) = false
  /\ (snd (span_not_gt s) = ""
      \/ exists r, snd (span_not_gt s) = String gt_char r).
Proof.
  induction s as [|c rest IH]; simpl.
  - auto.
  - destruct (Ascii.eqb c gt_char) eqn:E; simpl.
    + apply Ascii.eqb_eq in E. subst c.
      split; [reflexivity|]. split; [reflexivity|]. right. now exists rest.
    + destruct (span_not_gt rest) as [run after]; simpl in *.
      destruct IH as (H1 & H2 & H3). split; [now rewrite <- H1|].
      split; [|exact H3]. now rewrite Ascii.eqb_sym, E.
Qed.

(** What [match_tag] decides: the text starts with ["<"], then comes at
    least one character, none of them [">"], then [">"]. *)
Lemma match_tag_spec (s after : string) :
  match_tag s = Some after <->
  exists inner, inner <> "" /\ PyStr.contains gt_char inner = false
                /\ s = String lt_char (inner ++ String gt_char after).
Proof.
  split.
  - destruct s as [|c rest]; simpl; [discriminate|].
    destruct (Ascii.eqb c lt_char) eqn:E; [|discriminate].
    apply Ascii.eqb_eq in E. subst c.
    destruct (span_not_gt_spec rest) as (H1 & H2 & H3).
    destruct (span_not_gt rest) as [run aft]; simpl in *.
    destruct run as [|r0 run]; [discriminate|].
    destruct aft as [|a0 aft]; [discriminate|].
    intros [= <-]. exists (String r0 run).
    split; [discriminate|]. split; [exact H2|].
    destruct H3 as [H3|[r H3]]; [discriminate|]. injection H3 as -> ->.
    now rewrite H1.
  - intros (inner & Hne & Hno & ->). simpl.
    assert (Hspan : span_not_gt (inner ++ String gt_char after)
                    = (inner, String gt_char after)).
    { clear Hne. induction inner as [|c inner IH]; simpl; [reflexivity|].
      simpl in Hno. apply orb_false_elim in Hno as [Hc Hno].
      rewrite Ascii.eqb_sym, Hc, (IH Hno). reflexivity. }
    rewrite Hspan. destruct inner; [contradiction|reflexivity].
Qed.

(** Text without ["<"] goes through unchanged. *)
Lemma sub_tags_no_lt (s : string) :
  PyStr.contains lt_char s = false -> sub_tags s = s.
Proof.
  induction s as [|c rest IH]; intros H; [reflexivity|].
  simpl in H. apply orb_false_elim in H as [Hc H].
  rewrite sub_tags_cons. simpl. rewrite Ascii.eqb_sym, Hc. now rewrite IH.
Qed.

(** A tag after text without ["<"] is dropped, and the scan goes on
    behind it. *)
Lemma sub_tags_tag (pre inner post : string) :
  PyStr.contains lt_char pre = false ->
  inner <> "" -> PyStr.contains gt_char inner = false ->
  sub_tags (pre ++ String lt_char (inner ++ String gt_char post))
  = (pre ++ sub_tags post)%string.
Proof.
  intros Hpre Hne Hno.
  induction pre as [|c pre IH]; simpl.
  - rewrite sub_tags_cons.
    assert (E : match_tag (String lt_char (inner ++ String gt_char post))
                = Some post)
      by (apply match_tag_spec; now exists inner).
    now rewrite E.
  - simpl in Hpre. apply orb_false_elim in Hpre as [Hc Hpre].
    rewrite sub_tags_cons. simpl. rewrite Ascii.eqb_sym, Hc. now rewrite IH.
Qed.

End ReFacts.

(* ===================================================================== *)
(** * Composition, phase by phase *)
(* ===================================================================== *)

Lemma normalize_truthy (v : option str_or_list) :
  truthy_sl v = true <-> normalize v <> [].
Proof.
  destruct v as [[s|[|x l]]|]; simpl.
  - destruct s; simpl; split; congruence.
  - split; congruence.
  - split; congruence.
  - split; congruence.
Qed.

Lemma resolve_body_ok (req : SendRequest) :
  PyStr.truthy_opt (body req) || PyStr.truthy_opt (body_html req) = true ->
  resolve_body req = (Next (plain_text req), []).
Proof.
  unfold resolve_body, plain_text.
  destruct (PyStr.truthy_opt (body req)), (PyStr.truthy_opt (body_html req));
    simpl; intros H; try reflexivity; discriminate.
Qed.

Lemma resolve_body_missing (req : SendRequest) :
  PyStr.truthy_opt (body req) = false ->
  PyStr.truthy_opt (body_html req) = false ->
  resolve_body req
  = (Raise (ValueError missing_body_message), [Log LogBodyMissing]).
Proof.
  unfold resolve_body. intros -> ->. reflexivity.
Qed.

Lemma check_paths_regular (fs : string -> fs_entry) (l : list string) :
  Forall (regular fs) l -> check_paths fs l = (Next l, []).
Proof.
  induction 1 as [|p l [content Hp] _ IH]; simpl; [reflexivity|].
  rewrite Hp, IH. reflexivity.
Qed.

Lemma check_paths_absent (fs : string -> fs_entry) (pre post : list string)
      (p : string) :
  Forall (regular fs) pre -> fs p = Absent ->
  check_paths fs (pre ++ p :: post)
  = (Return false, [Log (LogAttachmentNotFound p)]).
Proof.
  induction 1 as [|q pre [content Hq] _ IH]; simpl; intros Hp.
  - rewrite Hp. reflexivity.
  - rewrite Hq, (IH Hp). reflexivity.
Qed.

Lemma check_paths_not_regular (fs : string -> fs_entry)
      (pre post : list string) (p : string) :
  Forall (regular fs) pre -> fs p = NotRegular ->
  check_paths fs (pre ++ p :: post)
  = (Return false, [Log (LogAttachmentNotAFile p)]).
Proof.
  induction 1 as [|q pre [content Hq] _ IH]; simpl; intros Hp.
  - rewrite Hp. reflexivity.
  - rewrite Hq, (IH Hp). reflexivity.
Qed.

(** A list of paths is all regular files, or has a first one that is not. *)
Lemma first_offender (fs : string -> fs_entry) (l : list string) :
  Forall (regular fs) l
  \/ exists pre p post, l = pre ++ p :: post /\ Forall (regular fs) pre
                        /\ (fs p = Absent \/ fs p = NotRegular).
Proof.
  induction l as [|q l IH]; [left; constructor|].
  destruct (fs q) as [| |content] eqn:Hq.
  - right. exists [], q, l. auto.
  - right. exists [], q, l. auto.
  - destruct IH as [IH|(pre & p & post & -> & Hpre & Hp)].
    + left. constructor; [now exists content|exact IH].
    + right. exists (q :: pre), p, post. split; [reflexivity|].
      split; [|exact Hp]. constructor; [now exists content|exact Hpre].
Qed.

(** The validation loop ends in one of three ways. *)
Lemma check_paths_cases (fs : string -> fs_entry) (l : list string) :
  (check_paths fs l = (Next l, []) /\ Forall (regular fs) l)
  \/ (exists p, In p l /\ fs p = Absent
                /\ check_paths fs l
                   = (Return false, [Log (LogAttachmentNotFound p)]))
  \/ (exists p, In p l /\ fs p = NotRegular
                /\ check_paths fs l
                   = (Return false, [Log (LogAttachmentNotAFile p)])).
Proof.
  destruct (first_offender fs l) as [H|(pre & p & post & -> & Hpre & [Hp|Hp])].
  - left. split; [now apply check_paths_regular|exact H].
  - right; left. exists p. split; [apply in_elt|].
    split; [exact Hp|now apply check_paths_absent].
  - right; right. exists p. split; [apply in_elt|].
    split; [exact Hp|now apply check_paths_not_regular].
Qed.

Section Composition.

Variable lib : Library.
Variable cfg : Config.EmailConfig.
Variable fs : string -> fs_entry.

Lemma make_attachment_cases (p : string) :
  (exists part, make_attachment lib fs p = (Next part, [])
                /\ is_attachment_of lib fs p part)
  \/ (exists e, make_attachment lib fs p = (Raise e, [])).
Proof.
  unfold make_attachment.
  destruct (PyStr.split_once "/" (content_type lib p)) as [[mt st]|] eqn:Hs.
  - apply split_once_spec in Hs as [Hct Hno].
    destruct (fs p) as [| |[data|]] eqn:Hp;
      try (right; eexists; reflexivity).
    left. eexists. split; [reflexivity|].
    exists mt, st, data. repeat split; assumption.
  - right. eexists. reflexivity.
Qed.

Lemma attach_files_cases (paths : list string) :
  forall (st : string) (ps : list Message) (hs : list header),
    (exists atts,
        attach_files lib fs (MIMEMultipart st ps hs) paths
        = (Next (MIMEMultipart st (ps ++ atts) hs), [])
        /\ Forall2 (is_attachment_of lib fs) paths atts)
    \/ (exists p e,
           In p paths
           /\ make_attachment lib fs p = (Raise e, [])
           /\ attach_files lib fs (MIMEMultipart st ps hs) paths
              = (Return false, [Log (LogAttachError p e)])).
Proof.
  induction paths as [|p rest IH]; intros st ps hs.
  - left. exists []. rewrite app_nil_r. split; [reflexivity|constructor].
  - cbn [attach_files].
    destruct (make_attachment_cases p) as [(part & Hm & Hpart)|(e & Hm)];
      rewrite Hm.
    + cbn. destruct (IH st (ps ++ [part]) hs)
        as [(atts & Hrest & Hall)|(q & e & Hin & Hq & Hrest)]; rewrite Hrest.
      * left. exists (part :: atts). rewrite <- app_assoc. cbn.
        split; [reflexivity|]. now constructor.
      * right. exists q, e. split; [now right|]. split; [exact Hq|reflexivity].
    + right. exists p, e. split; [now left|]. split; [exact Hm|reflexivity].
Qed.

Lemma set_headers_headers (req : SendRequest) (msg : Message) :
  headers_of (set_headers cfg req msg)
  = headers_of msg ++ expected_headers cfg req.
Proof.
  unfold set_headers, expected_headers.
  destruct (normalize (cc req)); destruct msg; cbn;
    repeat rewrite <- app_assoc; reflexivity.
Qed.

Lemma set_headers_parts (req : SendRequest) (msg : Message) :
  parts_of (set_headers cfg req msg) = parts_of msg.
Proof.
  unfold set_headers. destruct (normalize (cc req)); destruct msg; reflexivity.
Qed.

(** The message built for a validated body and validated paths. *)
Lemma build_message_cases (req : SendRequest) :
  (exists msg,
      build_message lib fs (plain_text req) (body_html req)
                    (normalize (attachments req)) = (Next msg, [])
      /\ headers_of msg = []
      /\ has_structure lib fs req msg)
  \/ (exists p e,
         In p (normalize (attachments req))
         /\ make_attachment lib fs p = (Raise e, [])
         /\ build_message lib fs (plain_text req) (body_html req)
                          (normalize (attachments req))
            = (Return false, [Log (LogAttachError p e)])).
Proof.
  unfold build_message, has_structure.
  destruct (normalize (attachments req)) as [|p0 rest] eqn:Hatt.
  - left. destruct (PyStr.truthy_opt (body_html req)); cbn.
    + eexists. split; [reflexivity|]. split; [reflexivity|].
      now exists [].
    + eexists. split; [reflexivity|]. split; [reflexivity|].
      now exists [].
  - cbn [attach app].
    destruct (attach_files_cases (p0 :: rest) "mixed"
                [body_part (plain_text req) (body_html req)] [])
      as [(atts & H & Hall)|(q & e & Hin & Hq & H)]; rewrite H.
    + left. eexists. split; [reflexivity|]. split; [reflexivity|].
      exists atts, []. split; [|exact Hall].
      unfold body_part, body_shape, alternative.
      destruct (PyStr.truthy_opt (body_html req)); reflexivity.
    + right. now exists q, e.
Qed.

(** How composition ends: the body is missing, a path or a file is
    refused, or the message and the recipient list are ready.  Nothing is
    logged in the last case, and no case touches the network. *)
Lemma compose_cases (req : SendRequest) :
  (PyStr.truthy_opt (body req) || PyStr.truthy_opt (body_html req) = false
   /\ compose lib cfg fs req
      = (Raise (ValueError missing_body_message), [Log LogBodyMissing]))
  \/ (PyStr.truthy_opt (body req) || PyStr.truthy_opt (body_html req) = true
      /\ exists l, compose lib cfg fs req = (Return false, [Log l]))
  \/ (PyStr.truthy_opt (body req) || PyStr.truthy_opt (body_html req) = true
      /\ Forall (regular fs) (normalize (attachments req))
      /\ exists msg,
          compose lib cfg fs req = (Next (msg, recipients req), [])
          /\ headers_of msg = expected_headers cfg req
          /\ has_structure lib fs req msg).
Proof.
  unfold compose.
  destruct (PyStr.truthy_opt (body req) || PyStr.truthy_opt (body_html req))
    eqn:Hb.
  - right. rewrite (resolve_body_ok req Hb). cbn [bind].
    destruct (check_paths_cases fs (normalize (attachments req)))
      as [[Hc Hall]|[(p & _ & _ & Hc)|(p & _ & _ & Hc)]]; rewrite Hc;
      cbn [bind].
    + destruct (build_message_cases req)
        as [(msg & Hm & Hh & Hs)|(p & e & _ & _ & Hm)]; rewrite Hm; cbn.
      * right. split; [reflexivity|]. split; [exact Hall|].
        eexists. split; [reflexivity|].
        split; [now rewrite set_headers_headers, Hh|].
        revert Hs. unfold has_structure.
        destruct (normalize (attachments req)).
        -- destruct (PyStr.truthy_opt (body_html req));
             intros [hs ->]; unfold set_headers;
             destruct (normalize (cc req)); eexists; reflexivity.
        -- intros (atts & hs & -> & Hf). exists atts.
           unfold set_headers.
           destruct (normalize (cc req)); eexists; (split; [|exact Hf]);
             reflexivity.
      * left. split; [reflexivity|]. now eexists.
    + left. split; [reflexivity|]. now eexists.
    + left. split; [reflexivity|]. now eexists.
  - left. apply orb_false_elim in Hb as [H1 H2].
    rewrite (resolve_body_missing req H1 H2). split; reflexivity.
Qed.

End Composition.

(* ===================================================================== *)
(** * Transport *)
(* ===================================================================== *)

Section Transport.

Variable lib : Library.
Variable cfg : Config.EmailConfig.
Variable fs : string -> fs_entry.
Variable srv : Server.

Lemma send_email_composed (req : SendRequest) (msg : Message)
      (rcpts : list string) :
  compose lib cfg fs req = (Next (msg, rcpts), []) ->
  send_email lib cfg fs srv req = deliver cfg srv req msg rcpts.
Proof.
  intros H. unfold send_email, send_email_try, deliver. rewrite H.
  cbn [bind fst snd].
  destruct (transport cfg srv msg rcpts;; return_ true) as [r t].
  reflexivity.
Qed.

Lemma send_email_refused (req : SendRequest) (l : log_event) :
  compose lib cfg fs req = (Return false, [Log l]) ->
  send_email lib cfg fs srv req = (Return false, [Log l]).
Proof.
  intros H. unfold send_email, send_email_try. rewrite H. reflexivity.
Qed.

Lemma send_email_missing_body (req : SendRequest) :
  PyStr.truthy_opt (body req) || PyStr.truthy_opt (body_html req) = false ->
  send_email lib cfg fs srv req
  = (Return false,
     [Log LogBodyMissing;
      Log (LogUnexpectedError (subject req) (ValueError missing_body_message))]).
Proof.
  intros Hb.
  destruct (compose_cases lib cfg fs req)
    as [[_ H]|[[Hb' _]|[Hb' _]]]; try congruence.
  unfold send_email, send_email_try. rewrite H. reflexivity.
Qed.

(** The transport phase, by cases on the answers of the server. *)
Lemma deliver_cases (req : SendRequest) (msg : Message)
      (rcpts : list string) :
  let out := deliver cfg srv req msg rcpts in
  (exists b, fst out = Return b)
  /\ (transport_fails cfg srv -> fst out = Return false)
  /\ (fst out = Return true <->
      ~ transport_fails cfg srv /\ on_quit srv = None)
  /\ connections (snd out) = 1
  /\ (sent (snd out) = [] \/ sent (snd out) = [(msg, rcpts)])
  /\ (fst out = Return true -> sent (snd out) = [(msg, rcpts)]).
Proof.
  unfold deliver, transport, transport_fails, handler, smtp_call.
  destruct srv as [c s l m q]. cbn [on_connect on_starttls on_login
                                    on_send_message on_quit].
  destruct (Config.use_tls cfg);
    destruct c as [ec|], s as [es|], l as [el|], m as [em|], q as [eq|];
    cbn;
    repeat match goal with
           | |- context [is_smtp_exception ?e] =>
               destruct (is_smtp_exception e)
           end;
    cbn; repeat split; eauto; try discriminate;
    try (intros; intuition congruence).
Qed.

End Transport.

(* ===================================================================== *)
(** * Properties of [send_email] *)
(* ===================================================================== *)

(** What a finished composition tells. *)
Lemma compose_next (lib : Library) (cfg : Config.EmailConfig)
      (fs : string -> fs_entry) (req : SendRequest) (msg : Message)
      (rcpts : list string) (t : list event) :
  compose lib cfg fs req = (Next (msg, rcpts), t) ->
  t = [] /\ rcpts = recipients req
  /\ PyStr.truthy_opt (body req) || PyStr.truthy_opt (body_html req) = true
  /\ Forall (regular fs) (normalize (attachments req))
  /\ headers_of msg = expected_headers cfg req
  /\ has_structure lib fs req msg.
Proof.
  intros H.
  destruct (compose_cases lib cfg fs req)
    as [[_ E]|[[_ [l E]]|(Hb & Hall & m & E & Hh & Hs)]];
    rewrite E in H; try discriminate.
  injection H as <- <- <-. repeat split; assumption.
Qed.

(** When the body is there and every attachment is a readable regular file
    whose content type has a ["/"], composition finishes. *)
Lemma compose_succeeds (lib : Library) (cfg : Config.EmailConfig)
      (fs : string -> fs_entry) (req : SendRequest) :
  PyStr.truthy_opt (body req) || PyStr.truthy_opt (body_html req) = true ->
  Forall (fun p => (exists data, fs p = RegularFile (Some data))
                   /\ PyStr.contains "/" (content_type lib p) = true)
         (normalize (attachments req)) ->
  exists msg, compose lib cfg fs req = (Next (msg, recipients req), []).
Proof.
  intros Hb Hall. unfold compose. rewrite (resolve_body_ok req Hb). cbn [bind].
  rewrite check_paths_regular.
  2:{ eapply Forall_impl; [|exact Hall]. intros p [[data Hp] _].
      now exists (Some data). }
  cbn [bind].
  destruct (build_message_cases lib fs req)
    as [(msg & Hm & _)|(p & e & Hin & Hp & _)].
  - rewrite Hm. eexists. reflexivity.
  - exfalso. rewrite Forall_forall in Hall.
    destruct (Hall p Hin) as [[data Hd] Hct].
    assert (Hsplit : exists ab,
               PyStr.split_once "/" (content_type lib p) = Some ab).
    { revert Hct. generalize (content_type lib p). intros s.
      induction s as [|c s IH]; simpl; [discriminate|].
      destruct (Ascii.eqb c "/") eqn:E; [eexists; reflexivity|].
      rewrite Ascii.eqb_sym, E. simpl. intros Hs.
      destruct (IH Hs) as [[a b] ->]. eexists; reflexivity. }
    destruct Hsplit as [[a b] Hsplit].
    unfold make_attachment in Hp. rewrite Hsplit, Hd in Hp. discriminate.
Qed.

(** C1. The structure of a composed message follows the precedence of the
    source: with attachments it is a [multipart/mixed] whose first part is
    the body (the plain text alone, or the [multipart/alternative] of plain
    text then HTML) and whose other parts are the attachments, one for each
    path, in the order of the request; without attachments and with HTML it
    is the [multipart/alternative] of plain text then HTML; with neither it
    is the plain-text part alone. *)
Theorem C1_message_structure (lib : Library) (cfg : Config.EmailConfig)
        (fs : string -> fs_entry) (req : SendRequest) (msg : Message)
        (rcpts : list string) (t : list event) :
  compose lib cfg fs req = (Next (msg, rcpts), t) ->
  (normalize (attachments req) <> [] ->
   exists atts hs,
     msg = MIMEMultipart "mixed"
             ((if PyStr.truthy_opt (body_html req)
               then MIMEMultipart "alternative"
                      [MIMEText (plain_text req) "plain" [];
                       MIMEText (str_of (body_html req)) "html" []] []
               else MIMEText (plain_text req) "plain" []) :: atts) hs
     /\ Forall2 (is_attachment_of lib fs) (normalize (attachments req)) atts)
  /\ (normalize (attachments req) = [] ->
      PyStr.truthy_opt (body_html req) = true ->
      exists hs,
        msg = MIMEMultipart "alternative"
                [MIMEText (plain_text req) "plain" [];
                 MIMEText (str_of (body_html req)) "html" []] hs)
  /\ (normalize (attachments req) = [] ->
      PyStr.truthy_opt (body_html req) = false ->
      exists hs, msg = MIMEText (plain_text req) "plain" hs).
Proof.
  intros H. apply compose_next in H as (_ & _ & _ & _ & _ & Hs).
  unfold has_structure, body_shape, alternative in Hs.
  destruct (normalize (attachments req)) as [|p rest].
  - split; [congruence|].
    destruct (PyStr.truthy_opt (body_html req)); split; intros _ E;
      try discriminate; exact Hs.
  - split; [intros _; exact Hs|]. split; discriminate.
Qed.

Lemma C1_message_structure_witness :
  exists atts hs,
    Sample.message_of
      (compose Sample.lib Sample.cfg Sample.fs
         (Sample.request None (Some "<p>Hi</p>")
                         (Some (Lst ["notes.txt"; "data/blob.bin"]))))
    = MIMEMultipart "mixed"
        (MIMEMultipart "alternative"
           [MIMEText "Hi" "plain" []; MIMEText "<p>Hi</p>" "html" []] []
         :: atts) hs
    /\ Forall2 (is_attachment_of Sample.lib Sample.fs)
               ["notes.txt"; "data/blob.bin"] atts.
Proof.
  refine (proj1 (@C1_message_structure Sample.lib Sample.cfg Sample.fs
                   (Sample.request None (Some "<p>Hi</p>")
                      (Some (Lst ["notes.txt"; "data/blob.bin"])))
                   _ _ _ _) _).
  - vm_compute. reflexivity.
  - simpl. discriminate.
Defined.

(** C2. When the plain-text body and the HTML body are both absent, the
    composition raises the [ValueError] of the missing body, and the call
    returns [False] without any call on the SMTP library: no connection,
    no login, no transmission. *)
Theorem C2_missing_body (lib : Library) (cfg : Config.EmailConfig)
        (fs : string -> fs_entry) (srv : Server) (req : SendRequest) :
  PyStr.truthy_opt (body req) = false ->
  PyStr.truthy_opt (body_html req) = false ->
  compose lib cfg fs req
  = (Raise (ValueError missing_body_message), [Log LogBodyMissing])
  /\ fst (send_email lib cfg fs srv req) = Return false
  /\ net_events (snd (send_email lib cfg fs srv req)) = []
  /\ log_events (snd (send_email lib cfg fs srv req))
     = [LogBodyMissing;
        LogUnexpectedError (subject req) (ValueError missing_body_message)].
Proof.
  intros H1 H2.
  assert (Hb : PyStr.truthy_opt (body req) || PyStr.truthy_opt (body_html req)
               = false) by now rewrite H1, H2.
  split.
  - destruct (compose_cases lib cfg fs req)
      as [[_ E]|[[Hb' _]|[Hb' _]]]; congruence.
  - rewrite (send_email_missing_body lib cfg fs srv req Hb).
    repeat split.
Qed.

Lemma C2_missing_body_witness :
  fst (send_email Sample.lib Sample.cfg Sample.fs Sample.server_ok
         (Sample.request None (Some "") (Some (Str "notes.txt"))))
  = Return false
  /\ net_events
       (snd (send_email Sample.lib Sample.cfg Sample.fs Sample.server_ok
               (Sample.request None (Some "") (Some (Str "notes.txt")))))
     = [].
Proof.
  pose proof (@C2_missing_body Sample.lib Sample.cfg Sample.fs Sample.server_ok
                (Sample.request None (Some "") (Some (Str "notes.txt")))
                eq_refl eq_refl) as H.
  exact (conj (proj1 (proj2 H)) (proj1 (proj2 (proj2 H)))).
Defined.



(** C4, as amended. An attachment path that is not an existing regular
    file makes the call return [False] with no call on the SMTP library.
    For a request with a body, the paths are examined in the order of the
    request: the first one that is not a regular file decides the error,
    "Attachment file not found" when nothing is there and "Attachment is
    not a file" when something other than a regular file is there; the
    paths after it are not examined. *)
Theorem C4_attachment_refused (lib : Library) (cfg : Config.EmailConfig)
        (fs : string -> fs_entry) (srv : Server) (req : SendRequest)
        (p : string) :
  In p (normalize (attachments req)) ->
  ~ regular fs p ->
  fst (send_email lib cfg fs srv req) = Return false
  /\ net_events (snd (send_email lib cfg fs srv req)) = []
  /\ forall pre post,
      PyStr.truthy_opt (body req) || PyStr.truthy_opt (body_html req) = true ->
      normalize (attachments req) = pre ++ p :: post ->
      Forall (regular fs) pre ->
      (fs p = Absent ->
       log_events (snd (send_email lib cfg fs srv req))
       = [LogAttachmentNotFound p])
      /\ (fs p = NotRegular ->
          log_events (snd (send_email lib cfg fs srv req))
          = [LogAttachmentNotAFile p]).
Proof.
  intros Hin Hbad.
  assert (Hout : fst (send_email lib cfg fs srv req) = Return false
                 /\ net_events (snd (send_email lib cfg fs srv req)) = []).
  { destruct (compose_cases lib cfg fs req)
      as [[Hb _]|[[_ [l E]]|(_ & Hall & _)]].
    - rewrite (send_email_missing_body lib cfg fs srv req Hb). now split.
    - rewrite (send_email_refused lib cfg fs srv req E). now split.
    - rewrite Forall_forall in Hall. elim Hbad. now apply Hall. }
  destruct Hout as [H1 H2]. split; [exact H1|]. split; [exact H2|].
  intros pre post Hb Hl Hpre.
  assert (Hc : forall r l,
             check_paths fs (normalize (attachments req)) = (Return r, [Log l]) ->
             send_email lib cfg fs srv req = (Return r, [Log l])).
  { intros r l E. unfold send_email, send_email_try, compose.
    rewrite (resolve_body_ok req Hb). cbn [bind]. rewrite E. reflexivity. }
  split; intros Hp.
  - rewrite (Hc false (LogAttachmentNotFound p)); [reflexivity|].
    rewrite Hl. now apply check_paths_absent.
  - rewrite (Hc false (LogAttachmentNotAFile p)); [reflexivity|].
    rewrite Hl. now apply check_paths_not_regular.
Qed.

Lemma C4_attachment_refused_witness :
  log_events
    (snd (send_email Sample.lib Sample.cfg Sample.fs Sample.server_ok
            (Sample.request (Some "hello") None
                            (Some (Lst ["notes.txt"; "missing.txt"])))))
  = [LogAttachmentNotFound "missing.txt"].
Proof.
  assert (Hin : In "missing.txt"
                   (normalize (attachments
                      (Sample.request (Some "hello") None
                         (Some (Lst ["notes.txt"; "missing.txt"]))))))
    by (simpl; auto).
  assert (Hbad : ~ regular Sample.fs "missing.txt")
    by (intros [content E]; vm_compute in E; discriminate).
  refine (proj1 (proj2 (proj2
            (@C4_attachment_refused Sample.lib Sample.cfg Sample.fs
               Sample.server_ok _ "missing.txt" Hin Hbad))
            ["notes.txt"] [] eq_refl eq_refl _) eq_refl).
  constructor; [|constructor]. eexists. vm_compute. reflexivity.
Defined.

(** C4, as worded, fails where an earlier path is refused first: the
    request attaches [data], a directory, and then [missing.txt], which does
    not exist; the call returns [False] with the one error "Attachment is not
    a file: data", and no "Attachment file not found" is reported for
    [missing.txt]. *)
Lemma C4_counterexample :
  In "missing.txt"
     (normalize (attachments
        (Sample.request (Some "hello") None
                        (Some (Lst ["data"; "missing.txt"])))))
  /\ Sample.fs "missing.txt" = Absent
  /\ send_email Sample.lib Sample.cfg Sample.fs Sample.server_ok
       (Sample.request (Some "hello") None (Some (Lst ["data"; "missing.txt"])))
     = (Return false, [Log (LogAttachmentNotAFile "data")])
  /\ ~ In (LogAttachmentNotFound "missing.txt")
         (log_events
            (snd (send_email Sample.lib Sample.cfg Sample.fs Sample.server_ok
                    (Sample.request (Some "hello") None
                                    (Some (Lst ["data"; "missing.txt"])))))).
Proof.
  split; [simpl; auto|]. split; [reflexivity|]. split; [reflexivity|].
  simpl. intros [H|[]]. discriminate H.
Qed.

(** The headers of attachment parts are the two [make_attachment] sets. *)
Lemma attachment_headers (lib : Library) (fs : string -> fs_entry)
      (paths : list string) (atts : list Message) :
  Forall2 (is_attachment_of lib fs) paths atts ->
  Forall (fun part =>
            forall h, In h (all_headers part) ->
                      fst h = "Content-Transfer-Encoding"
                      \/ fst h = "Content-Disposition") atts.
Proof.
  induction 1 as [|p part paths atts Hpart _ IH]; constructor; [|exact IH].
  destruct Hpart as (mt & st & data & _ & _ & _ & ->).
  simpl. intros h [<-|[<-|[]]]; auto.
Qed.

(** C5. The headers set on a composed message are, in this order, the
    subject, [From], [To] and, only when there are cc recipients, [Cc].
    [From] is the sender override when given, else the configured default
    sender when set, else the configured account address; [To] and [Cc] are
    the recipient lists joined with a comma and a space.  No header of the
    message or of any of its parts is named [Bcc], in any letter case, yet
    the recipient list handed to the transport is to, then cc, then bcc. *)
Theorem C5_headers_and_recipients (lib : Library) (cfg : Config.EmailConfig)
        (fs : string -> fs_entry) (req : SendRequest) (msg : Message)
        (rcpts : list string) (t : list event) :
  compose lib cfg fs req = (Next (msg, rcpts), t) ->
  headers_of msg
  = [("Subject", subject req);
     ("From", sender cfg req);
     ("To", PyStr.join ", " (to_list (to req)))]
    ++ (if truthy_sl (cc req)
        then [("Cc", PyStr.join ", " (normalize (cc req)))] else [])
  /\ (PyStr.truthy_opt (from_address req) = true ->
      from_address req = Some (sender cfg req))
  /\ (PyStr.truthy_opt (from_address req) = false ->
      Config.default_sender cfg <> "" ->
      sender cfg req = Config.default_sender cfg)
  /\ (PyStr.truthy_opt (from_address req) = false ->
      Config.default_sender cfg = "" ->
      sender cfg req = Config.gmail_address cfg)
  /\ (forall h, In h (all_headers msg) -> PyStr.lower (fst h) <> "bcc")
  /\ rcpts = to_list (to req) ++ normalize (cc req) ++ normalize (bcc req).
Proof.
  intros H. apply compose_next in H as (_ & Hr & _ & _ & Hh & Hs).
  assert (Hcc : expected_headers cfg req
                = [("Subject", subject req); ("From", sender cfg req);
                   ("To", PyStr.join ", " (to_list (to req)))]
                  ++ (if truthy_sl (cc req)
                      then [("Cc", PyStr.join ", " (normalize (cc req)))]
                      else [])).
  { unfold expected_headers. destruct (cc req) as [[[|c s]|[|x l]]|]; reflexivity. }
  split; [now rewrite Hh|].
  split; [|split; [|split; [|split; [|exact Hr]]]].
  - unfold sender. intros Hf. rewrite Hf.
    destruct (from_address req); [reflexivity|discriminate].
  - unfold sender. intros -> Hd.
    destruct (Config.default_sender cfg); [contradiction|reflexivity].
  - unfold sender. intros -> ->. reflexivity.
  - assert (Hexp : forall h, In h (expected_headers cfg req) ->
                             PyStr.lower (fst h) <> "bcc").
    { unfold expected_headers. intros h Hin. apply in_app_or in Hin.
      destruct Hin as [[<-|[<-|[<-|[]]]]|Hin]; try (simpl; discriminate).
      destruct (normalize (cc req)); [destruct Hin|].
      destruct Hin as [<-|[]]. simpl. discriminate. }
    unfold has_structure, body_shape, alternative in Hs.
    destruct (normalize (attachments req)) as [|p0 rest].
    + destruct (PyStr.truthy_opt (body_html req)); destruct Hs as [hs ->];
        simpl in Hh; subst hs; simpl; intros h Hin;
        try rewrite app_nil_r in Hin; now apply Hexp.
    + destruct Hs as (atts & hs & -> & Hall). simpl in Hh. subst hs.
      apply attachment_headers in Hall. intros h Hin.
      cbn [all_headers] in Hin. apply in_app_or in Hin as [Hin|Hin];
        [now apply Hexp|].
      apply in_app_or in Hin as [Hin|Hin].
      * destruct (PyStr.truthy_opt (body_html req)); destruct Hin.
      * clear -Hall Hin. induction Hall as [|part atts Hpart _ IH];
          [destruct Hin|].
        apply in_app_or in Hin as [Hin|Hin]; [|now apply IH].
        destruct (Hpart h Hin) as [-> | ->]; simpl; discriminate.
Qed.

Lemma C5_headers_and_recipients_witness :
  headers_of
    (Sample.message_of
       (compose Sample.lib Sample.cfg Sample.fs
          (Sample.request (Some "hello") None (Some (Str "notes.txt")))))
  = [("Subject", "Hi"); ("From", "me@gmail.com"); ("To", "a@x.com");
     ("Cc", "c@x.com")]
  /\ Sample.rcpts_of
       (compose Sample.lib Sample.cfg Sample.fs
          (Sample.request (Some "hello") None (Some (Str "notes.txt"))))
     = ["a@x.com"; "c@x.com"; "b@x.com"].
Proof.
  assert (E : compose Sample.lib Sample.cfg Sample.fs
                (Sample.request (Some "hello") None (Some (Str "notes.txt")))
              = (Next (Sample.message_of
                         (compose Sample.lib Sample.cfg Sample.fs
                            (Sample.request (Some "hello") None
                                            (Some (Str "notes.txt")))),
                       Sample.rcpts_of
                         (compose Sample.lib Sample.cfg Sample.fs
                            (Sample.request (Some "hello") None
                                            (Some (Str "notes.txt"))))), []))
    by (vm_compute; reflexivity).
  pose proof (C5_headers_and_recipients _ _ _ _ E) as H.
  exact (conj (proj1 H) (proj2 (proj2 (proj2 (proj2 (proj2 H)))))).
Defined.



(** The call never ends by an exception, whatever the request. *)
Lemma send_email_returns (lib : Library) (cfg : Config.EmailConfig)
      (fs : string -> fs_entry) (srv : Server) (req : SendRequest) :
  exists b, fst (send_email lib cfg fs srv req) = Return b.
Proof.
  destruct (compose_cases lib cfg fs req)
    as [[Hb _]|[[_ [l E]]|(_ & _ & msg & E & _)]].
  - rewrite (send_email_missing_body lib cfg fs srv req Hb). now exists false.
  - rewrite (send_email_refused lib cfg fs srv req E). now exists false.
  - rewrite (send_email_composed lib cfg fs srv req E).
    exact (proj1 (deliver_cases cfg srv req msg (recipients req))).
Qed.

(** The [MIMEBase] parts of a composed message are its attachments. *)
Lemma attachment_parts_composed (lib : Library) (fs : string -> fs_entry)
      (req : SendRequest) (msg : Message) :
  has_structure lib fs req msg ->
  Forall2 (is_attachment_of lib fs) (normalize (attachments req))
          (attachment_parts msg).
Proof.
  unfold has_structure, body_shape, alternative, attachment_parts.
  destruct (normalize (attachments req)) as [|p0 rest].
  - destruct (PyStr.truthy_opt (body_html req)); intros [hs ->]; constructor.
  - intros (atts & hs & -> & Hall). cbn [parts_of].
    assert (Hf : filter (fun part => match part with
                                     | MIMEBase _ _ _ _ => true
                                     | _ => false
                                     end) atts = atts).
    { clear -Hall. induction Hall as [|p part ps atts Hp _ IH]; [reflexivity|].
      destruct Hp as (mt & st & data & _ & _ & _ & ->). simpl. now rewrite IH. }
    cbn [filter]. destruct (PyStr.truthy_opt (body_html req)); now rewrite Hf.
Qed.

(** C7. Each attachment of the request has its part in the composed
    message, in order.  The content type of the part is the type guessed by
    [mimetypes] for the path when there is one and no encoding comes with it,
    and [application/octet-stream] otherwise; the part carries the header
    [Content-Disposition: attachment; filename=<name of the path>], the
    header [Content-Transfer-Encoding: base64] and, as payload, the base64
    encoding of the bytes of the file. *)
Theorem C7_attachment_parts (lib : Library) (cfg : Config.EmailConfig)
        (fs : string -> fs_entry) (req : SendRequest) (msg : Message)
        (rcpts : list string) (t : list event) :
  compose lib cfg fs req = (Next (msg, rcpts), t) ->
  Forall2
    (fun file_path part =>
       exists (maintype subtype : string) (data : list byte),
         fs file_path = RegularFile (Some data)
         /\ (maintype ++ "/" ++ subtype)%string
            = match guess_type lib (path_str lib file_path) with
              | (Some ctype, None) => ctype
              | _ => "application/octet-stream"
              end
         /\ part = MIMEBase maintype subtype (b64encode lib data)
                     [("Content-Transfer-Encoding", "base64");
                      ("Content-Disposition",
                       ("attachment; filename="
                        ++ path_name lib file_path)%string)])
    (normalize (attachments req)) (attachment_parts msg).
Proof.
  intros H. apply compose_next in H as (_ & _ & _ & _ & _ & Hs).
  apply attachment_parts_composed in Hs.
  eapply Forall2_impl; [|exact Hs].
  intros p part (mt & st & data & Hct & _ & Hp & ->).
  exists mt, st, data. split; [exact Hp|]. split; [|reflexivity].
  rewrite <- Hct. reflexivity.
Qed.

Lemma C7_attachment_parts_witness :
  Forall2
    (fun file_path part =>
       exists (maintype subtype : string) (data : list byte),
         Sample.fs file_path = RegularFile (Some data)
         /\ (maintype ++ "/" ++ subtype)%string
            = match guess_type Sample.lib (path_str Sample.lib file_path) with
              | (Some ctype, None) => ctype
              | _ => "application/octet-stream"
              end
         /\ part = MIMEBase maintype subtype (b64encode Sample.lib data)
                     [("Content-Transfer-Encoding", "base64");
                      ("Content-Disposition",
                       ("attachment; filename="
                        ++ path_name Sample.lib file_path)%string)])
    ["notes.txt"; "data/blob.bin"]
    [MIMEBase "text" "plain" "aGkK"
       [("Content-Transfer-Encoding", "base64");
        ("Content-Disposition", "attachment; filename=notes.txt")];
     MIMEBase "application" "octet-stream" "AP8="
       [("Content-Transfer-Encoding", "base64");
        ("Content-Disposition", "attachment; filename=blob.bin")]].
Proof.
  exact (@C7_attachment_parts Sample.lib Sample.cfg Sample.fs
           (Sample.request (Some "hello") None
                           (Some (Lst ["notes.txt"; "data/blob.bin"])))
           (Sample.message_of
              (compose Sample.lib Sample.cfg Sample.fs
                 (Sample.request (Some "hello") None
                    (Some (Lst ["notes.txt"; "data/blob.bin"])))))
           (Sample.rcpts_of
              (compose Sample.lib Sample.cfg Sample.fs
                 (Sample.request (Some "hello") None
                    (Some (Lst ["notes.txt"; "data/blob.bin"])))))
           [] eq_refl).
Defined.

(* ===================================================================== *)
(** * What composition depends on *)
(* ===================================================================== *)

Section Agreement.

Variable lib : Library.
Variable cfg : Config.EmailConfig.
Variables fs1 fs2 : string -> fs_entry.

Lemma check_paths_agree (l : list string) :
  (forall p, In p l -> fs1 p = fs2 p) ->
  check_paths fs1 l = check_paths fs2 l.
Proof.
  induction l as [|q l IH]; intros H; [reflexivity|].
  cbn [check_paths]. rewrite <- (H q (or_introl eq_refl)).
  rewrite IH; [reflexivity|]. intros p Hp. apply H. now right.
Qed.

Lemma attach_files_agree (l : list string) :
  (forall p, In p l -> fs1 p = fs2 p) ->
  forall msg, attach_files lib fs1 msg l = attach_files lib fs2 msg l.
Proof.
  induction l as [|q l IH]; intros H msg; [reflexivity|].
  cbn [attach_files]. unfold make_attachment.
  rewrite <- (H q (or_introl eq_refl)).
  destruct (try_except _ _) as [[m'| |] tr]; cbn [bind]; try reflexivity.
  rewrite IH; [reflexivity|]. intros p Hp. apply H. now right.
Qed.

Lemma check_paths_next (fs : string -> fs_entry) (l paths : list string)
      (tr : list event) :
  check_paths fs l = (Next paths, tr) -> paths = l.
Proof.
  intros H. destruct (check_paths_cases fs l)
    as [[E _]|[(p & _ & _ & E)|(p & _ & _ & E)]]; rewrite E in H;
    congruence.
Qed.

Lemma compose_agree (req : SendRequest) :
  (forall p, In p (normalize (attachments req)) -> fs1 p = fs2 p) ->
  compose lib cfg fs1 req = compose lib cfg fs2 req.
Proof.
  intros H. unfold compose.
  destruct (resolve_body req) as [[plain| |] tr]; cbn [bind]; try reflexivity.
  rewrite <- (check_paths_agree _ H).
  destruct (check_paths fs1 (normalize (attachments req)))
    as [[paths| |] tr'] eqn:E; cbn [bind]; try reflexivity.
  apply check_paths_next in E. subst paths.
  unfold build_message.
  destruct (normalize (attachments req)) as [|p0 rest] eqn:Hl;
    [reflexivity|].
  rewrite (attach_files_agree (p0 :: rest) H). reflexivity.
Qed.

End Agreement.

(** Whatever is handed to [send_message] is the composed message with the
    composed recipient list. *)
Lemma sent_is_composed (lib : Library) (cfg : Config.EmailConfig)
      (fs : string -> fs_entry) (srv : Server) (req : SendRequest)
      (m : Message) (r : list string) :
  In (m, r) (sent (snd (send_email lib cfg fs srv req))) ->
  compose lib cfg fs req = (Next (m, r), []).
Proof.
  destruct (compose_cases lib cfg fs req)
    as [[Hb _]|[[_ [l E]]|(_ & _ & msg & E & _)]].
  - rewrite (send_email_missing_body lib cfg fs srv req Hb). intros [].
  - rewrite (send_email_refused lib cfg fs srv req E). intros [].
  - rewrite (send_email_composed lib cfg fs srv req E).
    destruct (deliver_cases cfg srv req msg (recipients req))
      as (_ & _ & _ & _ & [Hs|Hs] & _); rewrite Hs; [intros []|].
    intros [[= <- <-]|[]]. exact E.
Qed.

(** C8. Composition is a function of the request, the configuration and
    the files the request names: two compositions of one request, in file
    systems that agree on its attachment paths, end the same way and, when
    they finish, give the same message (the same parts in the same order,
    the same headers) and the same recipient list.  Two calls of
    [send_email] hand the same message to the transport, whatever the
    server does in each. *)
Theorem C8_composition_deterministic (lib : Library)
        (cfg : Config.EmailConfig) (fs1 fs2 : string -> fs_entry)
        (srv1 srv2 : Server) (req : SendRequest) :
  (forall p, In p (normalize (attachments req)) -> fs1 p = fs2 p) ->
  compose lib cfg fs1 req = compose lib cfg fs2 req
  /\ forall m1 r1 m2 r2,
      In (m1, r1) (sent (snd (send_email lib cfg fs1 srv1 req))) ->
      In (m2, r2) (sent (snd (send_email lib cfg fs2 srv2 req))) ->
      m1 = m2 /\ r1 = r2
         /\ parts_of m1 = parts_of m2 /\ all_headers m1 = all_headers m2.
Proof.
  intros H. pose proof (compose_agree lib cfg fs1 fs2 req H) as E.
  split; [exact E|]. intros m1 r1 m2 r2 H1 H2.
  apply sent_is_composed in H1, H2. rewrite E, H2 in H1.
  injection H1 as <- <-. repeat split.
Qed.

Lemma C8_composition_deterministic_witness :
  compose Sample.lib Sample.cfg Sample.fs
          (Sample.request None (Some "<p>Hi</p>") (Some (Str "notes.txt")))
  = compose Sample.lib Sample.cfg
            (fun p => if String.eqb p "notes.txt" then Sample.fs p else NotRegular)
            (Sample.request None (Some "<p>Hi</p>") (Some (Str "notes.txt"))).
Proof.
  refine (proj1 (@C8_composition_deterministic Sample.lib Sample.cfg
                   Sample.fs _ Sample.server_ok Sample.server_bad_login
                   (Sample.request None (Some "<p>Hi</p>")
                                   (Some (Str "notes.txt"))) _)).
  simpl. intros p [<-|[]]. reflexivity.
Defined.



(* ===================================================================== *)
(** * Scheduled jobs *)
(* ===================================================================== *)

(** A message composed for a request without attachments has no
    attachment part. *)
Lemma no_attachment_composed (lib : Library) (fs : string -> fs_entry)
      (req : SendRequest) (msg : Message) :
  normalize (attachments req) = [] ->
  has_structure lib fs req msg ->
  has_attachment msg = false /\ attachment_parts msg = [].
Proof.
  unfold has_structure, alternative. intros ->.
  destruct (PyStr.truthy_opt (body_html req)); intros [hs ->]; now split.
Qed.

(** A job hands no attachment to the transport, whatever the files and the
    server. *)
Lemma run_job_without_attachments (j : Scheduler.Job) (lib : Library)
      (cfg : Config.EmailConfig) (fs : string -> fs_entry) (srv : Server)
      (m : Message) (r : list string) :
  In (m, r) (sent (Scheduler.run_job lib cfg fs srv j)) ->
  has_attachment m = false /\ attachment_parts m = [].
Proof.
  intros Hsent. unfold Scheduler.run_job in Hsent.
  apply sent_is_composed in Hsent.
  apply compose_next in Hsent as (_ & _ & _ & _ & _ & Hs).
  eapply no_attachment_composed; [|exact Hs].
  destruct (Scheduler.job_func j); reflexivity.
Qed.

(** Every registry the scheduler can reach holds only such jobs. *)
Lemma reachable_without_attachments (accepts : Scheduler.trigger -> bool)
      (jobs : Scheduler.registry) :
  Scheduler.reachable accepts jobs ->
  Forall (fun j => attachments (Scheduler.call_of (Scheduler.job_func j)) = None)
         jobs.
Proof.
  assert (Hreg : forall t f js js',
             Scheduler.register accepts t f js = Some js' ->
             attachments (Scheduler.call_of f) = None ->
             Forall (fun j => attachments (Scheduler.call_of (Scheduler.job_func j))
                              = None) js ->
             Forall (fun j => attachments (Scheduler.call_of (Scheduler.job_func j))
                              = None) js').
  { intros t f js js'. unfold Scheduler.register.
    destruct (accepts t); [|discriminate]. intros [= <-] Hf Hjs.
    apply Forall_app. split; [exact Hjs|]. constructor; [exact Hf|constructor]. }
  induction 1 as [|js js' ? ? ? ? ? _ IH E|js js' ? ? ? ? ? ? _ IH E
                  |js js' ? ? ? ? ? _ IH E|js _ _].
  - constructor.
  - exact (Hreg _ _ _ _ E eq_refl IH).
  - exact (Hreg _ _ _ _ E eq_refl IH).
  - exact (Hreg _ _ _ _ E eq_refl IH).
  - constructor.
Qed.

(** C10. A job registered through [schedule_daily], [schedule_weekly] or
    [schedule_interval] is appended to the registry, and what it does when
    run is to call [send_email] with the recipients, subject and bodies
    given at registration and with [attachments=None] (and no sender
    override, cc or bcc): whatever the files and the server, a message that
    job hands to the transport has no attachment part. *)
Theorem C10_scheduled_without_attachments
        (accepts : Scheduler.trigger -> bool) (jobs jobs' : Scheduler.registry)
        (day time_str : string) (interval_minutes : Z) (to_ : str_or_list)
        (subject_ : string) (body_ body_html_ : option string) :
  Scheduler.schedule_daily accepts time_str to_ subject_ body_ body_html_ jobs
  = Some jobs'
  \/ Scheduler.schedule_weekly accepts day time_str to_ subject_ body_
                               body_html_ jobs = Some jobs'
  \/ Scheduler.schedule_interval accepts interval_minutes to_ subject_ body_
                                 body_html_ jobs = Some jobs' ->
  exists j,
    jobs' = jobs ++ [j]
    /\ Scheduler.call_of (Scheduler.job_func j)
       = {| to := to_; subject := subject_; body := body_;
            body_html := body_html_; from_address := None; cc := None;
            bcc := None; attachments := None |}
    /\ forall lib cfg fs srv m r,
        In (m, r) (sent (Scheduler.run_job lib cfg fs srv j)) ->
        has_attachment m = false /\ attachment_parts m = [].
Proof.
  unfold Scheduler.schedule_daily, Scheduler.schedule_weekly,
    Scheduler.schedule_interval, Scheduler.register.
  intros [H|[H|H]];
    match type of H with
    | (if accepts ?t then _ else _) = _ =>
        destruct (accepts t); [|discriminate]
    end;
    injection H as <-; eexists; (split; [reflexivity|]);
    (split; [reflexivity|]); intros lib cfg fs srv m r;
    apply run_job_without_attachments.
Qed.

Lemma C10_scheduled_without_attachments_witness :
  exists j,
    [j] = [{| Scheduler.job_trigger := Scheduler.Daily "09:30";
              Scheduler.job_func :=
                Scheduler.DailySend "09:30" (Str "a@x.com") "Report"
                                    (Some "hello") None |}]
    /\ attachments (Scheduler.call_of (Scheduler.job_func j)) = None.
Proof.
  destruct (@C10_scheduled_without_attachments Sample.accepts [] _
              "monday" "09:30" 5%Z (Str "a@x.com") "Report" (Some "hello") None
              (or_introl eq_refl)) as (j & Hj & Hcall & _).
  exists j. split; [symmetry; exact Hj|]. rewrite Hcall. reflexivity.
Defined.

(* ===================================================================== *)
(** * The whole call *)
(* ===================================================================== *)

Lemma contains_app (c : ascii) (a b : string) :
  PyStr.contains c (a ++ b) = PyStr.contains c a || PyStr.contains c b.
Proof.
  induction a as [|d a IH]; simpl; [reflexivity|].
  now rewrite IH, orb_assoc.
Qed.

Lemma contains_split (sep : ascii) (s : string) :
  PyStr.contains sep s = true -> exists ab, PyStr.split_once sep s = Some ab.
Proof.
  induction s as [|c s IH]; simpl; [discriminate|].
  destruct (Ascii.eqb c sep) eqn:E; [eexists; reflexivity|].
  rewrite Ascii.eqb_sym, E. simpl. intros Hs.
  destruct (IH Hs) as [[a b] ->]. eexists; reflexivity.
Qed.

(** When [make_attachment] makes a part and when it raises. *)
Lemma make_attachment_attachable (lib : Library) (fs : string -> fs_entry)
      (p : string) :
  (attachable lib fs p ->
   exists part, make_attachment lib fs p = (Next part, []))
  /\ (~ attachable lib fs p ->
      exists e, make_attachment lib fs p = (Raise e, [])).
Proof.
  unfold attachable, make_attachment. split.
  - intros [[data Hd] Hct]. apply contains_split in Hct as [[a b] ->].
    rewrite Hd. eexists. reflexivity.
  - intros Hno.
    destruct (PyStr.split_once "/" (content_type lib p)) as [[a b]|] eqn:Hs;
      [|eexists; reflexivity].
    destruct (fs p) as [| |[data|]] eqn:Hp; try (eexists; reflexivity).
    elim Hno. split; [now exists data|].
    apply split_once_spec in Hs as [-> _]. rewrite contains_app.
    cbn [PyStr.contains]. rewrite Ascii.eqb_refl. now rewrite orb_true_r.
Qed.

Lemma is_attachment_attachable (lib : Library) (fs : string -> fs_entry)
      (paths : list string) (atts : list Message) :
  Forall2 (is_attachment_of lib fs) paths atts ->
  Forall (attachable lib fs) paths.
Proof.
  induction 1 as [|p part paths atts Hp _ IH]; constructor; [|exact IH].
  destruct Hp as (mt & st & data & Hct & _ & Hd & _). split; [now exists data|].
  rewrite Hct, contains_app. cbn [PyStr.contains append].
  rewrite Ascii.eqb_refl. now rewrite orb_true_r.
Qed.

Lemma attachable_regular (lib : Library) (fs : string -> fs_entry)
      (paths : list string) :
  Forall (attachable lib fs) paths -> Forall (regular fs) paths.
Proof.
  apply Forall_impl. intros p [[data Hd] _]. now exists (Some data).
Qed.

(** Composition finishes exactly when a body is there and every attachment
    can be made into a part. *)
Lemma compose_finishes_iff (lib : Library) (cfg : Config.EmailConfig)
      (fs : string -> fs_entry) (req : SendRequest) :
  (exists msg, compose lib cfg fs req = (Next (msg, recipients req), []))
  <-> PyStr.truthy_opt (body req) || PyStr.truthy_opt (body_html req) = true
      /\ Forall (attachable lib fs) (normalize (attachments req)).
Proof.
  split.
  - intros [msg H]. apply compose_next in H as (_ & _ & Hb & _ & _ & Hs).
    split; [exact Hb|]. unfold has_structure in Hs.
    destruct (normalize (attachments req)) as [|p0 rest]; [constructor|].
    destruct Hs as (atts & hs & _ & Hall).
    exact (is_attachment_attachable Hall).
  - intros [Hb Hall]. now apply compose_succeeds.
Qed.

(** The transport phase when no call raises. *)
Lemma deliver_accepted (cfg : Config.EmailConfig) (srv : Server)
      (req : SendRequest) (msg : Message) (rcpts : list string) :
  server_accepts cfg srv ->
  deliver cfg srv req msg rcpts
  = (Return true, map Net (smtp_session cfg msg rcpts)).
Proof.
  unfold server_accepts, deliver, transport, smtp_session, smtp_call.
  destruct srv as [c s l m q]. cbn [on_connect on_starttls on_login
                                    on_send_message on_quit].
  intros (-> & Hs & -> & -> & ->).
  destruct (Config.use_tls cfg); [rewrite (Hs eq_refl)|]; reflexivity.
Qed.

Lemma accepts_iff_no_failure (cfg : Config.EmailConfig) (srv : Server) :
  server_accepts cfg srv
  <-> ~ transport_fails cfg srv /\ on_quit srv = None.
Proof.
  unfold server_accepts, transport_fails.
  destruct srv as [c s l m q]. cbn [on_connect on_starttls on_login
                                    on_send_message on_quit].
  destruct (Config.use_tls cfg), c, s, l, m, q;
    split; intuition (try congruence; try discriminate).
Qed.

(** X1. [send_email] returns [True] exactly when a body is there (plain
    text or HTML, not empty), every attachment is a readable regular file
    whose content type has a ["/"], and no call on the server raises, the
    closing QUIT included.  A failing QUIT turns a finished transmission
    into [False]. *)
Theorem send_email_true_iff (lib : Library) (cfg : Config.EmailConfig)
        (fs : string -> fs_entry) (srv : Server) (req : SendRequest) :
  fst (send_email lib cfg fs srv req) = Return true
  <-> PyStr.truthy_opt (body req) || PyStr.truthy_opt (body_html req) = true
      /\ Forall (attachable lib fs) (normalize (attachments req))
      /\ server_accepts cfg srv.
Proof.
  split.
  - intros H.
    destruct (compose_cases lib cfg fs req)
      as [[Hb _]|[[_ [l E]]|(Hb & _ & msg & E & _)]].
    + rewrite (send_email_missing_body lib cfg fs srv req Hb) in H.
      discriminate.
    + rewrite (send_email_refused lib cfg fs srv req E) in H. discriminate.
    + split; [exact Hb|]. split.
      * apply (compose_finishes_iff lib cfg fs req). now exists msg.
      * rewrite (send_email_composed lib cfg fs srv req E) in H.
        apply accepts_iff_no_failure.
        now apply (deliver_cases cfg srv req msg (recipients req)).
  - intros (Hb & Hall & Hsrv).
    destruct (proj2 (compose_finishes_iff lib cfg fs req) (conj Hb Hall))
      as [msg E].
    rewrite (send_email_composed lib cfg fs srv req E).
    now rewrite (deliver_accepted req msg (recipients req) Hsrv).
Qed.

(** The transport phase, call by call: which calls are made after which
    answers, and what is logged. *)
Lemma deliver_calls (cfg : Config.EmailConfig) (srv : Server)
      (req : SendRequest) (msg : Message) (rcpts : list string) :
  let t := snd (deliver cfg srv req msg rcpts) in
  (Config.use_tls cfg = true -> on_starttls srv <> None ->
   forall u p, ~ In (Login u p) (net_events t))
  /\ (on_connect srv <> None
      \/ (Config.use_tls cfg = true /\ on_starttls srv <> None)
      \/ on_login srv <> None -> sent t = [])
  /\ (on_connect srv <> None ->
      net_events t = [Connect (Config.smtp_server cfg) (Config.smtp_port cfg)])
  /\ (on_connect srv = None ->
      exists mid,
        net_events t
        = Connect (Config.smtp_server cfg) (Config.smtp_port cfg)
            :: mid ++ [Quit]
        /\ ~ In Quit mid
        /\ forall h p, ~ In (Connect h p) mid).
Proof.
  unfold deliver, transport, handler, smtp_call.
  destruct srv as [c s l m q]. cbn [on_connect on_starttls on_login
                                    on_send_message on_quit].
  destruct (Config.use_tls cfg);
    destruct c as [ec|], s as [es|], l as [el|], m as [em|], q as [eq|];
    cbn;
    repeat match goal with
           | |- context [is_smtp_exception ?e] =>
               destruct (is_smtp_exception e)
           end;
    cbn;
    (split; [|split; [|split]]);
    try (intros; exfalso; intuition congruence);
    try (intros; reflexivity);
    try (intros ? ? ? ? H; cbn in H; intuition discriminate);
    try (intros _;
         match goal with
         | |- exists mid, _ :: ?l = _ :: mid ++ [Quit] /\ _ =>
             exists (removelast l)
         end;
         cbn; split; [reflexivity|];
         split; [intuition discriminate|intros ? ?; intuition discriminate]).
Qed.

(** What the [except] clauses log for the transport phase. *)
Lemma deliver_log (cfg : Config.EmailConfig) (srv : Server)
      (req : SendRequest) (msg : Message) (rcpts : list string) :
  let t := snd (deliver cfg srv req msg rcpts) in
  (forall e, on_connect srv = Some e -> log_events t = [failure_entry req e])
  /\ (forall e, on_connect srv = None -> on_quit srv = Some e ->
                log_events t = [failure_entry req e])
  /\ (forall e, on_connect srv = None -> on_quit srv = None ->
                Config.use_tls cfg = true -> on_starttls srv = Some e ->
                log_events t = [failure_entry req e])
  /\ (forall e, on_connect srv = None -> on_quit srv = None ->
                (Config.use_tls cfg = true -> on_starttls srv = None) ->
                on_login srv = Some e ->
                log_events t = [failure_entry req e])
  /\ (forall e, on_connect srv = None -> on_quit srv = None ->
                (Config.use_tls cfg = true -> on_starttls srv = None) ->
                on_login srv = None -> on_send_message srv = Some e ->
                log_events t = [failure_entry req e])
  /\ (server_accepts cfg srv -> log_events t = []).
Proof.
  unfold deliver, transport, handler, smtp_call, failure_entry, server_accepts.
  destruct srv as [c s l m q]. cbn [on_connect on_starttls on_login
                                    on_send_message on_quit].
  destruct (Config.use_tls cfg);
    destruct c as [ec|], s as [es|], l as [el|], m as [em|], q as [eq|];
    cbn;
    repeat match goal with
           | |- context [is_smtp_exception ?e] =>
               destruct (is_smtp_exception e) eqn:?
           end;
    cbn;
    repeat split; intros;
    repeat match goal with
           | H : Some _ = Some _ |- _ => injection H as <-
           | H : Some _ = None |- _ => discriminate H
           | H : None = Some _ |- _ => discriminate H
           | H : false = true |- _ => discriminate H
           | H : true = true -> Some _ = None |- _ => discriminate (H eq_refl)
           | H : _ /\ _ |- _ => destruct H
           end;
    try reflexivity;
    repeat match goal with
           | H : is_smtp_exception ?e = _ |- context [is_smtp_exception ?e] =>
               rewrite H
           end;
    try reflexivity.
Qed.

Lemma send_email_true_iff_witness :
  fst (send_email Sample.lib Sample.cfg Sample.fs Sample.server_ok
         (Sample.request (Some "hello") None (Some (Str "notes.txt"))))
  = Return true
  /\ fst (send_email Sample.lib Sample.cfg Sample.fs
            Sample2.server_bad_send_and_quit
            (Sample.request (Some "hello") None None))
     <> Return true.
Proof.
  split.
  - apply send_email_true_iff. split; [reflexivity|]. split.
    + constructor; [|constructor]. split; [eexists|]; reflexivity.
    + repeat split.
  - intros H. apply send_email_true_iff in H as (_ & _ & _ & _ & _ & _ & Hq).
    discriminate Hq.
Defined.

(** A call ends before the network, or goes through the transport phase
    with the composed message. *)
Lemma send_email_phases (lib : Library) (cfg : Config.EmailConfig)
      (fs : string -> fs_entry) (srv : Server) (req : SendRequest) :
  (fst (send_email lib cfg fs srv req) = Return false
   /\ net_events (snd (send_email lib cfg fs srv req)) = []
   /\ sent (snd (send_email lib cfg fs srv req)) = []
   /\ forall msg t, compose lib cfg fs req <> (Next msg, t))
  \/ (exists msg,
         compose lib cfg fs req = (Next (msg, recipients req), [])
         /\ send_email lib cfg fs srv req
            = deliver cfg srv req msg (recipients req)).
Proof.
  destruct (compose_cases lib cfg fs req)
    as [[Hb E]|[[_ [l E]]|(_ & _ & msg & E & _)]].
  - left. rewrite (send_email_missing_body lib cfg fs srv req Hb).
    repeat split. intros msg t. rewrite E. discriminate.
  - left. rewrite (send_email_refused lib cfg fs srv req E).
    repeat split. intros msg t. rewrite E. discriminate.
  - right. exists msg. split; [exact E|].
    exact (send_email_composed lib cfg fs srv req E).
Qed.

(** X2. When [send_email] returns [True], what it did on the network is
    exactly this, in this order: open the connection to the configured host
    and port, upgrade to TLS when TLS is on, log in with the configured
    account, hand the composed message to [send_message] for the recipients
    to, cc and bcc, and close with QUIT.  Nothing is logged as an error. *)
Theorem send_email_success_trace (lib : Library) (cfg : Config.EmailConfig)
        (fs : string -> fs_entry) (srv : Server) (req : SendRequest) :
  fst (send_email lib cfg fs srv req) = Return true ->
  exists msg,
    compose lib cfg fs req = (Next (msg, recipients req), [])
    /\ snd (send_email lib cfg fs srv req)
       = map Net
             ([Connect (Config.smtp_server cfg) (Config.smtp_port cfg)]
              ++ (if Config.use_tls cfg then [StartTLS] else [])
              ++ [Login (Config.gmail_address cfg) (Config.gmail_password cfg);
                  SendMessage msg
                    (to_list (to req) ++ normalize (cc req)
                     ++ normalize (bcc req));
                  Quit]).
Proof.
  intros H.
  destruct (send_email_phases lib cfg fs srv req)
    as [(Hf & _)|(msg & E & Hd)]; [congruence|].
  exists msg. split; [exact E|]. rewrite Hd in *.
  assert (Hacc : server_accepts cfg srv).
  { apply accepts_iff_no_failure.
    now apply (deliver_cases cfg srv req msg (recipients req)). }
  rewrite (deliver_accepted req msg (recipients req) Hacc). reflexivity.
Qed.

Lemma send_email_success_trace_witness :
  exists msg,
    snd (send_email Sample.lib Sample.cfg Sample.fs Sample.server_ok
           (Sample.request None (Some "<p>Hi</p>") None))
    = map Net [Connect "smtp.gmail.com" 587; StartTLS;
               Login "me@gmail.com" "app-password";
               SendMessage msg ["a@x.com"; "c@x.com"; "b@x.com"];
               Quit].
Proof.
  destruct (@send_email_success_trace Sample.lib Sample.cfg Sample.fs
              Sample.server_ok (Sample.request None (Some "<p>Hi</p>") None)
              eq_refl) as (msg & _ & H).
  exists msg. exact H.
Defined.

(** X3. [send_email] and [send_email_to_ymail] end by returning a boolean
    for every request, file system and server: every exception raised on
    the way, by the body validation, by an attachment or by the server, is
    caught inside the call. *)
Theorem send_email_never_raises (lib : Library) (cfg : Config.EmailConfig)
        (fs : string -> fs_entry) (srv : Server) (req : SendRequest)
        (ymail_address : string) :
  (exists b, fst (send_email lib cfg fs srv req) = Return b)
  /\ (exists b, fst (send_email_to_ymail lib cfg fs srv ymail_address req)
                = Return b).
Proof.
  assert (H : forall r, exists b, fst (send_email lib cfg fs srv r) = Return b).
  { intros r. destruct (send_email_phases lib cfg fs srv r)
      as [(Hf & _)|(msg & _ & Hd)].
    - now exists false.
    - rewrite Hd. exact (proj1 (deliver_cases cfg srv r msg (recipients r))). }
  split; [apply H|]. unfold send_email_to_ymail. apply H.
Qed.

(** X4. With TLS on, a failed TLS upgrade ends the session: [login] is not
    called, so the password is not sent, and nothing is handed to
    [send_message].  A failed login, too, leaves nothing handed over. *)
Theorem no_login_after_failed_tls (lib : Library) (cfg : Config.EmailConfig)
        (fs : string -> fs_entry) (srv : Server) (req : SendRequest) :
  (Config.use_tls cfg = true -> on_starttls srv <> None ->
   (forall u p,
       ~ In (Login u p) (net_events (snd (send_email lib cfg fs srv req))))
   /\ sent (snd (send_email lib cfg fs srv req)) = [])
  /\ (on_login srv <> None ->
      sent (snd (send_email lib cfg fs srv req)) = []).
Proof.
  destruct (send_email_phases lib cfg fs srv req)
    as [(_ & Hn & Hs & _)|(msg & _ & Hd)].
  - rewrite Hn, Hs. split; [intros _ _; split; [intros u p []|]|]; reflexivity.
  - rewrite Hd.
    destruct (deliver_calls cfg srv req msg (recipients req))
      as (H1 & H2 & _).
    split; [intros Ht Hs; split|intros Hl].
    + now apply H1.
    + apply H2. right; left. now split.
    + apply H2. right; right. exact Hl.
Qed.

Lemma no_login_after_failed_tls_witness :
  (forall u p,
      ~ In (Login u p)
           (net_events
              (snd (send_email Sample.lib Sample.cfg Sample.fs
                      Sample2.server_bad_tls
                      (Sample.request (Some "hello") None None)))))
  /\ sent (snd (send_email Sample.lib Sample.cfg Sample.fs
                  Sample2.server_bad_tls
                  (Sample.request (Some "hello") None None))) = [].
Proof.
  apply (proj1 (@no_login_after_failed_tls Sample.lib Sample.cfg Sample.fs
                  Sample2.server_bad_tls
                  (Sample.request (Some "hello") None None))).
  - reflexivity.
  - simpl. discriminate.
Defined.


(** X6. What a failed transport phase logs is one entry, for the exception
    that reaches the [except] clauses: an [SMTPException] as "SMTP error",
    any other as "Unexpected error".  That exception is the one of the
    constructor when it raises; otherwise the one of the closing QUIT when
    it raises, whatever failed before it; otherwise the first of TLS
    upgrade, login and transmission. *)
Theorem transport_failure_log (lib : Library) (cfg : Config.EmailConfig)
        (fs : string -> fs_entry) (srv : Server) (req : SendRequest)
        (msg : Message) (rcpts : list string) (t : list event) :
  compose lib cfg fs req = (Next (msg, rcpts), t) ->
  let entry e :=
    if is_smtp_exception e then LogSMTPError (subject req) e
    else LogUnexpectedError (subject req) e in
  let logged := log_events (snd (send_email lib cfg fs srv req)) in
  (forall e, on_connect srv = Some e -> logged = [entry e])
  /\ (forall e, on_connect srv = None -> on_quit srv = Some e ->
                logged = [entry e])
  /\ (forall e, on_connect srv = None -> on_quit srv = None ->
                Config.use_tls cfg = true -> on_starttls srv = Some e ->
                logged = [entry e])
  /\ (forall e, on_connect srv = None -> on_quit srv = None ->
                (Config.use_tls cfg = true -> on_starttls srv = None) ->
                on_login srv = Some e -> logged = [entry e])
  /\ (forall e, on_connect srv = None -> on_quit srv = None ->
                (Config.use_tls cfg = true -> on_starttls srv = None) ->
                on_login srv = None -> on_send_message srv = Some e ->
                logged = [entry e]).
Proof.
  intros H. destruct (compose_next _ _ _ _ H) as (-> & _).
  cbv zeta. rewrite (send_email_composed lib cfg fs srv req H).
  destruct (deliver_log cfg srv req msg rcpts) as (H1 & H2 & H3 & H4 & H5 & _).
  unfold failure_entry in *. repeat split; assumption.
Qed.

Lemma transport_failure_log_witness :
  log_events
    (snd (send_email Sample.lib Sample.cfg Sample.fs
            Sample2.server_bad_send_and_quit
            (Sample.request (Some "hello") None None)))
  = [LogUnexpectedError "Hi" (OSError "connection reset")].
Proof.
  refine (proj1 (proj2 (@transport_failure_log Sample.lib Sample.cfg Sample.fs
                          Sample2.server_bad_send_and_quit
                          (Sample.request (Some "hello") None None)
                          _ _ _ _)) _ eq_refl eq_refl).
  vm_compute. reflexivity.
Defined.

(** The attaching loop stops at the first file it cannot make a part of. *)
Lemma attach_files_first_failure (lib : Library) (fs : string -> fs_entry)
      (pre post : list string) (p : string) (e : exn) :
  Forall (attachable lib fs) pre ->
  make_attachment lib fs p = (Raise e, []) ->
  forall msg,
    attach_files lib fs msg (pre ++ p :: post)
    = (Return false, [Log (LogAttachError p e)]).
Proof.
  intros Hpre Hp. induction Hpre as [|q pre Hq _ IH]; intros msg.
  - cbn [app attach_files]. rewrite Hp. reflexivity.
  - cbn [app attach_files].
    destruct (proj1 (make_attachment_attachable lib fs q) Hq) as [part ->].
    cbn. rewrite IH. reflexivity.
Qed.



Lemma fallback_not_empty (html : string) : fallback html <> "".
Proof.
  unfold fallback. destruct (PyStr.strip (Re.sub_tags html)); simpl; discriminate.
Qed.

Lemma plain_text_not_empty (req : SendRequest) :
  PyStr.truthy_opt (body req) || PyStr.truthy_opt (body_html req) = true ->
  plain_text req <> "".
Proof.
  unfold plain_text. destruct (PyStr.truthy_opt (body req)) eqn:Hb.
  - intros _. apply truthy_opt_some in Hb as (s & -> & Hs). exact Hs.
  - intros _. apply fallback_not_empty.
Qed.

(** X8. Every message [send_email] composes has a [text/plain] part that
    is not empty, and it comes first: it is the plain-text body when one is
    given, and the fallback made from the HTML otherwise. *)
Theorem plain_part_never_empty (lib : Library) (cfg : Config.EmailConfig)
        (fs : string -> fs_entry) (req : SendRequest) (msg : Message)
        (rcpts : list string) (t : list event) :
  compose lib cfg fs req = (Next (msg, rcpts), t) ->
  exists plain,
    first_plain msg = Some plain
    /\ plain <> ""
    /\ (PyStr.truthy_opt (body req) = true -> body req = Some plain)
    /\ (PyStr.truthy_opt (body req) = false ->
        plain = fallback (str_of (body_html req))).
Proof.
  intros H. apply compose_next in H as (_ & _ & Hb & _ & _ & Hs).
  exists (plain_text req). split; [|split; [|split]].
  - unfold has_structure, body_shape, alternative in Hs.
    destruct (normalize (attachments req)).
    + destruct (PyStr.truthy_opt (body_html req)); destruct Hs as [hs ->];
        reflexivity.
    + destruct Hs as (atts & hs & -> & _).
      destruct (PyStr.truthy_opt (body_html req)); reflexivity.
  - now apply plain_text_not_empty.
  - unfold plain_text. intros Ht. rewrite Ht.
    destruct (body req); [reflexivity|discriminate].
  - unfold plain_text. intros Ht. now rewrite Ht.
Qed.

Lemma plain_part_never_empty_witness :
  exists plain,
    first_plain
      (Sample.message_of
         (compose Sample.lib Sample.cfg Sample.fs
            (Sample.request None (Some "  <br/> ") (Some (Str "notes.txt")))))
    = Some plain
    /\ plain <> "".
Proof.
  destruct (@plain_part_never_empty Sample.lib Sample.cfg Sample.fs
              (Sample.request None (Some "  <br/> ") (Some (Str "notes.txt")))
              _ _ _ eq_refl) as (plain & H1 & H2 & _).
  exists plain. split; [exact H1|exact H2].
Defined.

(* ===================================================================== *)
(** * The plain-text fallback *)
(* ===================================================================== *)

Module FallbackFacts.
Import Re ReFacts.

Lemma length_app (a b : string) :
  String.length (a ++ b) = String.length a + String.length b.
Proof.
  induction a as [|c a IH]; simpl; [reflexivity|]. now rewrite IH.
Qed.

Lemma app_empty_r (a : string) : (a ++ "")%string = a.
Proof.
  induction a as [|c a IH]; simpl; [reflexivity|]. now rewrite IH.
Qed.

Lemma app_assoc_s (a b c : string) :
  ((a ++ b) ++ c)%string = (a ++ (b ++ c))%string.
Proof.
  induction a as [|d a IH]; simpl; [reflexivity|]. now rewrite IH.
Qed.

Lemma match_tag_after (s after : string) :
  match_tag s = Some after ->
  String.length after < String.length s
  /\ forall c, PyStr.contains c after = true -> PyStr.contains c s = true.
Proof.
  intros H. apply match_tag_spec in H as (inner & _ & _ & ->). split.
  - simpl. rewrite length_app. simpl. lia.
  - intros c Hc. simpl. rewrite contains_app. simpl. rewrite Hc.
    now rewrite !orb_true_r.
Qed.

(** Removing tags adds no character. *)
Lemma sub_tags_contains (c : ascii) (s : string) :
  PyStr.contains c (sub_tags s) = true -> PyStr.contains c s = true.
Proof.
  remember (String.length s) as n eqn:Hn. revert s Hn.
  induction n as [n IH] using lt_wf_ind. intros [|d rest] Hn.
  - simp sub_tags; try discriminate.
  - rewrite sub_tags_cons.
    destruct (match_tag (String d rest)) as [after|] eqn:Hm.
    + destruct (match_tag_after _ Hm) as [Hlen Hsub]. intros H.
      apply Hsub. apply (IH (String.length after)); [lia|reflexivity|exact H].
    + cbn [PyStr.contains]. intros H. apply orb_true_iff in H as [H|H].
      * now rewrite H.
      * rewrite (IH (String.length rest)); [apply orb_true_r| |reflexivity|exact H].
        subst n. simpl. lia.
Qed.

(** No tag starts at a ["<"] that the scan keeps. *)
Lemma kept_char_starts_no_tag (c : ascii) (rest : string) :
  match_tag (String c rest) = None ->
  match_tag (String c (sub_tags rest)) = None.
Proof.
  intros Hnone.
  destruct (match_tag (String c (sub_tags rest))) as [after|] eqn:Hm;
    [exfalso|reflexivity].
  apply match_tag_spec in Hm as (inner & Hne & Hno & E).
  injection E as -> E.
  assert (Hgt : PyStr.contains gt_char rest = true).
  { apply sub_tags_contains. rewrite E, contains_app. cbn [PyStr.contains].
    rewrite Ascii.eqb_refl. now rewrite orb_true_r. }
  destruct rest as [|d rest']; [discriminate|].
  assert (Hd : Ascii.eqb d gt_char = false).
  { destruct (Ascii.eqb d gt_char) eqn:Hd; [|reflexivity].
    apply Ascii.eqb_eq in Hd. subst d. rewrite sub_tags_cons in E.
    change (match_tag (String gt_char rest')) with (@None string) in E.
    destruct inner as [|i inner]; [contradiction|].
    injection E as <- _. cbn [PyStr.contains] in Hno.
    rewrite Ascii.eqb_refl in Hno. discriminate. }
  destruct (span_not_gt_spec (String d rest')) as (H1 & H2 & H3).
  assert (Hsome : exists r, match_tag (String lt_char (String d rest')) = Some r).
  { destruct (span_not_gt (String d rest')) as [run aft] eqn:Hs.
    cbn [fst snd] in H1, H2, H3.
    destruct H3 as [->|[r ->]].
    - rewrite app_empty_r in H1. rewrite <- H1 in H2.
      rewrite H2 in Hgt. discriminate.
    - exists r. apply match_tag_spec. exists run.
      split; [|split; [exact H2|now rewrite <- H1]].
      intros ->. simpl in H1. injection H1 as ->.
      rewrite Ascii.eqb_refl in Hd. discriminate. }
  destruct Hsome as [r Hr]. rewrite Hr in Hnone. discriminate.
Qed.

(** After the scan no tag is left, wherever one looks. *)
Lemma sub_tags_tag_free (s : string) :
  forall pre suf, sub_tags s = (pre ++ suf)%string -> match_tag suf = None.
Proof.
  remember (String.length s) as n eqn:Hn. revert s Hn.
  induction n as [n IH] using lt_wf_ind. intros [|d rest] Hn.
  - simp sub_tags. intros [|c pre] suf E; [|discriminate].
    simpl in E. subst suf. reflexivity.
  - rewrite sub_tags_cons.
    destruct (match_tag (String d rest)) as [after|] eqn:Hm.
    + destruct (match_tag_after _ Hm) as [Hlen _].
      apply (IH (String.length after)); [lia|reflexivity].
    + intros [|c pre] suf E.
      * simpl in E. subst suf. now apply kept_char_starts_no_tag.
      * injection E as _ E.
        apply (IH (String.length rest)) with (s := rest) (pre := pre);
          [subst n; simpl; lia|reflexivity|exact E].
Qed.

(** Text without a tag is left as it is. *)
Lemma sub_tags_fixed (s : string) :
  (forall pre suf, s = (pre ++ suf)%string -> match_tag suf = None) ->
  sub_tags s = s.
Proof.
  induction s as [|c rest IH]; intros H; [reflexivity|].
  rewrite sub_tags_cons, (H EmptyString (String c rest) eq_refl).
  rewrite IH; [reflexivity|]. intros pre suf E.
  apply (H (String c pre) suf). simpl. now rewrite E.
Qed.

Lemma tag_free_part (a b c : string) :
  (forall pre suf, (a ++ b ++ c)%string = (pre ++ suf)%string ->
                   match_tag suf = None) ->
  forall pre suf, b = (pre ++ suf)%string -> match_tag suf = None.
Proof.
  intros H pre suf ->.
  destruct (match_tag suf) as [after|] eqn:Hm; [|reflexivity].
  apply match_tag_spec in Hm as (inner & Hne & Hno & ->).
  assert (Hm : match_tag (String lt_char (inner ++ String gt_char (after ++ c)))
               = Some (after ++ c)%string)
    by (apply match_tag_spec; now exists inner).
  rewrite (H (a ++ pre)%string
             (String lt_char (inner ++ String gt_char (after ++ c)))) in Hm;
    [discriminate|].
  rewrite !app_assoc_s. simpl. now rewrite app_assoc_s.
Qed.

Lemma lstrip_suffix (s : string) : exists a, s = (a ++ PyStr.lstrip s)%string.
Proof.
  induction s as [|c s [a IH]]; simpl; [now exists ""|].
  destruct (PyStr.isspace c).
  - exists (String c a). simpl. now rewrite <- IH.
  - now exists "".
Qed.

Lemma rstrip_prefix (s : string) : exists c, s = (PyStr.rstrip s ++ c)%string.
Proof.
  induction s as [|d s [c IH]]; simpl; [now exists ""|].
  destruct (PyStr.rstrip s) as [|r0 r] eqn:E.
  - destruct (PyStr.isspace d).
    + exists (String d s). reflexivity.
    + exists s. reflexivity.
  - exists c. simpl in *. now rewrite <- IH.
Qed.

Lemma lstrip_head (s : string) :
  PyStr.lstrip s = ""
  \/ exists c r, PyStr.lstrip s = String c r /\ PyStr.isspace c = false.
Proof.
  induction s as [|c s IH]; simpl; [now left|].
  destruct (PyStr.isspace c) eqn:E; [exact IH|].
  right. now exists c, s.
Qed.

Lemma rstrip_keeps_head (c : ascii) (r : string) :
  PyStr.isspace c = false ->
  exists r', PyStr.rstrip (String c r) = String c r'.
Proof.
  intros H. simpl. destruct (PyStr.rstrip r); [rewrite H|]; eexists; reflexivity.
Qed.

Lemma rstrip_idempotent (s : string) :
  PyStr.rstrip (PyStr.rstrip s) = PyStr.rstrip s.
Proof.
  induction s as [|c s IH]; [reflexivity|]. simpl.
  destruct (PyStr.rstrip s) as [|r0 r] eqn:E.
  - destruct (PyStr.isspace c) eqn:Hc; [reflexivity|]. simpl. now rewrite Hc.
  - change (PyStr.rstrip (String c (String r0 r)))
      with (match PyStr.rstrip (String r0 r) with
            | EmptyString =>
                if PyStr.isspace c then EmptyString else String c EmptyString
            | q => String c q
            end).
    now rewrite IH.
Qed.

Lemma strip_idempotent (s : string) :
  PyStr.strip (PyStr.strip s) = PyStr.strip s.
Proof.
  unfold PyStr.strip.
  destruct (lstrip_head s) as [->|(c & r & -> & Hc)]; [reflexivity|].
  destruct (@rstrip_keeps_head c r Hc) as [r' E].
  rewrite E. simpl PyStr.lstrip. rewrite Hc. rewrite <- E.
  apply rstrip_idempotent.
Qed.

End FallbackFacts.

(** X9. The plain text made from an HTML body holds no tag any more: at no
    position does it match [<[^>]+>].  It is not empty and has no white
    space at either end: stripping it again, of tags or of white space,
    changes nothing. *)
Theorem fallback_has_no_tag (html : string) :
  (forall pre suf,
      fallback html = (pre ++ suf)%string -> Re.match_tag suf = None)
  /\ fallback html <> ""
  /\ Re.sub_tags (fallback html) = fallback html
  /\ PyStr.strip (fallback html) = fallback html.
Proof.
  assert (Hfree : forall pre suf,
             fallback html = (pre ++ suf)%string -> Re.match_tag suf = None).
  { unfold fallback.
    destruct (PyStr.truthy (PyStr.strip (Re.sub_tags html))).
    - unfold PyStr.strip.
      destruct (FallbackFacts.lstrip_suffix (Re.sub_tags html)) as [a Ha].
      destruct (FallbackFacts.rstrip_prefix (PyStr.lstrip (Re.sub_tags html)))
        as [c Hc].
      apply (@FallbackFacts.tag_free_part a _ c).
      rewrite <- Hc, <- Ha. apply FallbackFacts.sub_tags_tag_free.
    - intros pre suf E.
      destruct (Re.match_tag suf) as [after|] eqn:Hm; [exfalso|reflexivity].
      apply ReFacts.match_tag_spec in Hm as (inner & _ & _ & ->).
      assert (H : PyStr.contains Re.lt_char placeholder = true).
      { rewrite E, contains_app. cbn [PyStr.contains].
        rewrite Ascii.eqb_refl. apply orb_true_r. }
      vm_compute in H. discriminate. }
  split; [exact Hfree|]. split; [apply fallback_not_empty|].
  split; [now apply FallbackFacts.sub_tags_fixed|].
  unfold fallback. destruct (PyStr.truthy (PyStr.strip (Re.sub_tags html))).
  - apply FallbackFacts.strip_idempotent.
  - reflexivity.
Qed.

(** X10. [re.sub(r'<[^>]+>', '', s)] does its work in one pass: its result
    has no match of the pattern left, so that a second pass returns it
    unchanged; and it adds nothing, every character of the result being one
    of [s]. *)
Theorem sub_tags_idempotent (s : string) :
  Re.sub_tags (Re.sub_tags s) = Re.sub_tags s
  /\ (forall pre suf,
         Re.sub_tags s = (pre ++ suf)%string -> Re.match_tag suf = None)
  /\ (forall c, PyStr.contains c (Re.sub_tags s) = true ->
                PyStr.contains c s = true).
Proof.
  split; [|split].
  - apply FallbackFacts.sub_tags_fixed. apply FallbackFacts.sub_tags_tag_free.
  - apply FallbackFacts.sub_tags_tag_free.
  - intros c. apply FallbackFacts.sub_tags_contains.
Qed.

(* ===================================================================== *)
(** * The configuration *)
(* ===================================================================== *)

Lemma truthy_iff (s : string) : PyStr.truthy s = true <-> s <> "".
Proof.
  destruct s; simpl; split; congruence.
Qed.

Lemma contains_not_empty (c : ascii) (s : string) :
  PyStr.contains c s = true -> s <> "".
Proof.
  destruct s; simpl; congruence.
Qed.

(** X11. [EmailConfig.validate] accepts a configuration exactly when the
    account address and the password are set and the address has an ["@"];
    it returns an error message exactly when it rejects.  A configuration
    that [validate] accepts is one that [is_configured] accepts. *)
Theorem validate_accepts_iff (c : Config.EmailConfig) :
  (fst (Config.validate c) = true <->
   Config.gmail_address c <> "" /\ Config.gmail_password c <> ""
   /\ PyStr.contains "@" (Config.gmail_address c) = true)
  /\ (fst (Config.validate c) = true <-> snd (Config.validate c) = None)
  /\ (fst (Config.validate c) = true -> Config.is_configured c = true).
Proof.
  unfold Config.validate, Config.is_configured.
  destruct (Config.gmail_address c) as [|a0 a] eqn:Ha;
    destruct (Config.gmail_password c) as [|p0 p] eqn:Hp;
    cbn [PyStr.truthy negb andb fst snd];
    try (split; [|split]; (split || idtac); intros;
         try discriminate; intuition congruence).
  destruct (PyStr.contains "@" (String a0 a)); cbn [negb fst snd];
    (split; [|split]); (split || idtac); intros;
    try discriminate; try reflexivity;
    try (repeat split; discriminate); intuition congruence.
Qed.

Lemma MailClient_init_cases (config : Config.EmailConfig) :
  (MailClient_init config = inr config
   /\ Config.gmail_address config <> "" /\ Config.gmail_password config <> ""
   /\ PyStr.contains "@" (Config.gmail_address config) = true)
  \/ (MailClient_init config
      = inl (ValueError
               "Gmail credentials not configured. Set GMAIL_ADDRESS and GMAIL_PASSWORD environment variables.")
      /\ (Config.gmail_address config = "" \/ Config.gmail_password config = ""))
  \/ (MailClient_init config
      = inl (ValueError
               "Invalid configuration: GMAIL_ADDRESS must be a valid email address")
      /\ Config.gmail_address config <> "" /\ Config.gmail_password config <> ""
      /\ PyStr.contains "@" (Config.gmail_address config) = false).
Proof.
  unfold MailClient_init, Config.validate, Config.is_configured.
  destruct (Config.gmail_address config) as [|a0 a] eqn:Ha;
    destruct (Config.gmail_password config) as [|p0 p] eqn:Hp;
    cbn [PyStr.truthy negb andb];
    try (right; left; split; [reflexivity|auto]; fail).
  destruct (PyStr.contains "@" (String a0 a)) eqn:Hat; cbn [negb].
  - left. repeat split; discriminate.
  - right; right. repeat split; discriminate.
Qed.

(** X12. [MailClient.__init__] keeps the configuration exactly when the
    account address and the password are set and the address has an ["@"].
    Otherwise it raises a [ValueError] with one of two messages, "Gmail
    credentials not configured..." or "Invalid configuration: GMAIL_ADDRESS
    must be a valid email address"; the two "... is not set" messages of
    [validate] never come out of it. *)
Theorem MailClient_init_accepts_iff (config : Config.EmailConfig) :
  (MailClient_init config = inr config <->
   Config.gmail_address config <> "" /\ Config.gmail_password config <> ""
   /\ PyStr.contains "@" (Config.gmail_address config) = true)
  /\ (forall c, MailClient_init config = inr c -> c = config)
  /\ (forall e,
         MailClient_init config = inl e ->
         e = ValueError
               "Gmail credentials not configured. Set GMAIL_ADDRESS and GMAIL_PASSWORD environment variables."
         \/ e = ValueError
                  "Invalid configuration: GMAIL_ADDRESS must be a valid email address").
Proof.
  destruct (MailClient_init_cases config)
    as [(E & H1 & H2 & H3)|[(E & H)|(E & H1 & H2 & H3)]]; rewrite E.
  - split; [split; auto|]. split; [intros c [= <-]; reflexivity|discriminate].
  - split; [split; [discriminate|intros (H1 & H2 & _); destruct H; contradiction]|].
    split; [discriminate|]. intros e [= <-]. now left.
  - split; [split; [discriminate|intros (_ & _ & H); congruence]|].
    split; [discriminate|]. intros e [= <-]. now right.
Qed.

(** X13. With a configuration that [MailClient.__init__] accepts, the
    [From] header of every composed message is present and not empty: the
    override when given, else the default sender when set, else the account
    address, which is set. *)
Theorem from_header_never_empty (lib : Library) (config : Config.EmailConfig)
        (fs : string -> fs_entry) (req : SendRequest) (msg : Message)
        (rcpts : list string) (t : list event) :
  MailClient_init config = inr config ->
  compose lib config fs req = (Next (msg, rcpts), t) ->
  exists v, nth_error (headers_of msg) 1 = Some ("From", v) /\ v <> "".
Proof.
  intros Hinit H. apply compose_next in H as (_ & _ & _ & _ & Hh & _).
  exists (sender config req). rewrite Hh. split; [reflexivity|].
  destruct (MailClient_init_cases config)
    as [(_ & Ha & _)|[(E & _)|(E & _)]]; try congruence.
  unfold sender. destruct (PyStr.truthy_opt (from_address req)) eqn:Hf.
  - apply truthy_opt_some in Hf as (s & -> & Hs). exact Hs.
  - destruct (Config.default_sender config); [exact Ha|discriminate].
Qed.

Lemma from_header_never_empty_witness :
  exists v,
    nth_error
      (headers_of
         (Sample.message_of
            (compose Sample.lib Sample.cfg Sample.fs
               (Sample.request (Some "hello") None None)))) 1
    = Some ("From", v) /\ v <> "".
Proof.
  exact (@from_header_never_empty Sample.lib Sample.cfg Sample.fs
           (Sample.request (Some "hello") None None) _ _ _ eq_refl eq_refl).
Defined.

Section FromEnvironment.

Variable getenv : string -> option string.
Variable parse_int : string -> option Z.

Lemma EmailConfig_init_fields (config : Config.EmailConfig) :
  EmailConfig_init getenv parse_int = inr config ->
  parse_int (getenv_default getenv "SMTP_PORT" "587")
  = Some (Config.smtp_port config)
  /\ Config.smtp_server config
     = getenv_default getenv "SMTP_SERVER" "smtp.gmail.com"
  /\ Config.gmail_address config = getenv_default getenv "GMAIL_ADDRESS" ""
  /\ Config.gmail_password config = getenv_default getenv "GMAIL_PASSWORD" ""
  /\ Config.default_sender config
     = getenv_default getenv "DEFAULT_SENDER" (Config.gmail_address config)
  /\ Config.use_tls config
     = String.eqb (PyStr.lower (getenv_default getenv "USE_TLS" "true")) "true".
Proof.
  unfold EmailConfig_init.
  destruct (parse_int (getenv_default getenv "SMTP_PORT" "587"));
    [|discriminate].
  intros [= <-]. repeat split.
Qed.

(** X14. [MailClient()] builds a client from the environment exactly when
    [SMTP_PORT] (587 when unset) reads as an integer, [GMAIL_ADDRESS] is set
    to a value with an ["@"], and [GMAIL_PASSWORD] is set and not empty.
    Without a sender override, the [From] of that client is
    [DEFAULT_SENDER] when it is set and not empty, and [GMAIL_ADDRESS]
    otherwise. *)
Theorem MailClient_new_iff :
  ((exists client, MailClient_new getenv parse_int = inr client) <->
   (exists port,
       parse_int (getenv_default getenv "SMTP_PORT" "587") = Some port)
   /\ (exists address, getenv "GMAIL_ADDRESS" = Some address
                       /\ PyStr.contains "@" address = true)
   /\ (exists password, getenv "GMAIL_PASSWORD" = Some password
                        /\ password <> ""))
  /\ (forall client req,
         MailClient_new getenv parse_int = inr client ->
         PyStr.truthy_opt (from_address req) = false ->
         sender client req
         = match getenv "DEFAULT_SENDER" with
           | Some (String c d) => String c d
           | _ => getenv_default getenv "GMAIL_ADDRESS" ""
           end).
Proof.
  split; [split|].
  - intros [client H]. unfold MailClient_new in H.
    destruct (EmailConfig_init getenv parse_int) as [e|config] eqn:E;
      [discriminate|].
    destruct (EmailConfig_init_fields E) as (Hport & _ & Ha & Hp & _).
    destruct (MailClient_init_cases config)
      as [(_ & H1 & H2 & H3)|[(E' & _)|(E' & _)]]; try congruence.
    split; [eexists; exact Hport|]. unfold getenv_default in Ha, Hp. split.
    + destruct (getenv "GMAIL_ADDRESS") as [a|]; [|congruence].
      exists a. split; [reflexivity|congruence].
    + destruct (getenv "GMAIL_PASSWORD") as [p|]; [|congruence].
      exists p. split; [reflexivity|congruence].
  - intros ([port Hport] & (a & Ha & Hat) & (p & Hp & Hne)).
    unfold MailClient_new, EmailConfig_init. rewrite Hport.
    match goal with |- exists client, MailClient_init ?c = _ => exists c;
      destruct (MailClient_init_cases c)
        as [(E & _)|[(_ & [H|H])|(_ & _ & _ & H)]]; [exact E| | |];
      exfalso; cbn [Config.gmail_address Config.gmail_password] in H;
      unfold getenv_default in H; rewrite ?Ha, ?Hp in H
    end.
    + exact (@contains_not_empty "@"%char a Hat H).
    + contradiction.
    + congruence.
  - intros client req H Hf. unfold MailClient_new in H.
    destruct (EmailConfig_init getenv parse_int) as [e|config] eqn:E;
      [discriminate|].
    destruct (EmailConfig_init_fields E) as (_ & _ & Ha & _ & Hd & _).
    destruct (MailClient_init_cases config)
      as [(E' & _)|[(E' & _)|(E' & _)]]; rewrite E' in H; try discriminate.
    injection H as <-. unfold sender. rewrite Hf, Hd, <- Ha.
    unfold getenv_default.
    destruct (getenv "DEFAULT_SENDER") as [[|c d]|]; try reflexivity.
    destruct (Config.gmail_address config); reflexivity.
Qed.

End FromEnvironment.

Lemma MailClient_new_iff_witness :
  (exists client, MailClient_new Sample2.getenv Sample2.parse_int = inr client)
  /\ sender Sample.cfg (Sample.request (Some "hello") None None)
     = "me@gmail.com".
Proof.
  destruct (MailClient_new_iff Sample2.getenv Sample2.parse_int) as [H1 H2].
  split.
  - apply H1. split; [now exists 587%Z|].
    split; [exists "me@gmail.com"|exists "app-password"];
      (split; [reflexivity|]); [reflexivity|discriminate].
  - exact (H2 Sample.cfg (Sample.request (Some "hello") None None)
              eq_refl eq_refl).
Defined.

Lemma deliver_tls (cfg : Config.EmailConfig) (srv : Server)
      (req : SendRequest) (msg : Message) (rcpts : list string) :
  let t := snd (deliver cfg srv req msg rcpts) in
  (Config.use_tls cfg = false -> ~ In StartTLS (net_events t))
  /\ (Config.use_tls cfg = true -> on_connect srv = None ->
      nth_error (net_events t) 1 = Some StartTLS).
Proof.
  unfold deliver, transport, handler, smtp_call.
  destruct srv as [c s l m q]. cbn [on_connect on_starttls on_login
                                    on_send_message on_quit].
  destruct (Config.use_tls cfg);
    destruct c as [ec|], s as [es|], l as [el|], m as [em|], q as [eq|];
    cbn;
    repeat match goal with
           | |- context [is_smtp_exception ?e] =>
               destruct (is_smtp_exception e)
           end;
    cbn; split; intros; try discriminate; try reflexivity;
    intuition discriminate.
Qed.

(** X15. TLS is on exactly when [USE_TLS] is unset or reads [true] in any
    letter case; any other value, [1] or [yes] among them, turns it off.
    With TLS off [starttls] is never called, so the login goes over the
    connection as it was opened; with TLS on, [starttls] is the first call
    on an opened connection. *)
Theorem tls_follows_environment (getenv : string -> option string)
        (parse_int : string -> option Z) (cfg : Config.EmailConfig)
        (lib : Library) (fs : string -> fs_entry) (srv : Server)
        (req : SendRequest) :
  EmailConfig_init getenv parse_int = inr cfg ->
  (Config.use_tls cfg = true <->
   getenv "USE_TLS" = None
   \/ exists v, getenv "USE_TLS" = Some v /\ PyStr.lower v = "true")
  /\ (Config.use_tls cfg = false ->
      ~ In StartTLS (net_events (snd (send_email lib cfg fs srv req))))
  /\ (Config.use_tls cfg = true -> on_connect srv = None ->
      net_events (snd (send_email lib cfg fs srv req)) = []
      \/ nth_error (net_events (snd (send_email lib cfg fs srv req))) 1
         = Some StartTLS).
Proof.
  intros E. destruct (EmailConfig_init_fields _ _ E) as (_ & _ & _ & _ & _ & Ht).
  split; [|split].
  - rewrite Ht. unfold getenv_default.
    destruct (getenv "USE_TLS") as [v|].
    + rewrite String.eqb_eq. split.
      * intros H. right. now exists v.
      * intros [H|(v' & [= <-] & H)]; [discriminate|exact H].
    + split; [now left|reflexivity].
  - intros Hoff.
    destruct (send_email_phases lib cfg fs srv req)
      as [(_ & Hn & _)|(msg & _ & Hd)].
    + rewrite Hn. intros [].
    + rewrite Hd. now apply deliver_tls.
  - intros Hon Hc.
    destruct (send_email_phases lib cfg fs srv req)
      as [(_ & Hn & _)|(msg & _ & Hd)]; [now left|right].
    rewrite Hd. now apply deliver_tls.
Qed.

Lemma tls_follows_environment_witness :
  exists cfg,
    EmailConfig_init Sample2.getenv_tls_1 Sample2.parse_int = inr cfg
    /\ ~ In StartTLS
         (net_events
            (snd (send_email Sample.lib cfg Sample.fs Sample.server_ok
                    (Sample.request (Some "hello") None None)))).
Proof.
  eexists. split; [vm_compute; reflexivity|].
  refine (proj1 (proj2 (@tls_follows_environment Sample2.getenv_tls_1
                          Sample2.parse_int _ Sample.lib Sample.fs
                          Sample.server_ok
                          (Sample.request (Some "hello") None None) _)) _).
  - vm_compute. reflexivity.
  - reflexivity.
Defined.

(* ===================================================================== *)
(** * The command line *)
(* ===================================================================== *)

(** The recipients enter a call only as the list they stand for. *)
Lemma send_email_to_list (lib : Library) (cfg : Config.EmailConfig)
      (fs : string -> fs_entry) (srv : Server) (req : SendRequest)
      (t : str_or_list) :
  to_list t = to_list (to req) ->
  send_email lib cfg fs srv (with_to t req) = send_email lib cfg fs srv req.
Proof.
  intros H.
  unfold send_email, send_email_try, compose, handler, set_headers, recipients,
    resolve_body, with_to.
  cbn [to subject body body_html from_address cc bcc attachments].
  unfold sender. cbn [from_address]. rewrite H. reflexivity.
Qed.

Lemma network_app (a b : list Cli.cli_event) :
  Cli.network (a ++ b) = Cli.network a ++ Cli.network b.
Proof.
  apply flat_map_app.
Qed.

Lemma network_init_errors (l : list string) :
  Cli.network (map Cli.InitError l) = [].
Proof.
  induction l; auto.
Qed.

Lemma network_sent (events : list event) :
  Cli.network (map Cli.Sent events) = net_events events.
Proof.
  unfold Cli.network, net_events.
  induction events as [|[l|n] events IH]; cbn; congruence.
Qed.

Lemma network_summary (args : Cli.Args) : Cli.network (Cli.summary args) = [].
Proof.
  unfold Cli.summary.
  destruct (Cli.truthy_list (Cli.arg_cc args)),
    (Cli.truthy_list (Cli.arg_bcc args)), (Cli.arg_attachments args);
    reflexivity.
Qed.

Section CommandLine.

Variable lib : Library.
Variable getenv : string -> option string.
Variable parse_int : string -> option Z.
Variable fs : string -> fs_entry.
Variable srv : Server.

Lemma check_attachments_none (l : list string) :
  Cli.check_attachments fs l = None <-> Forall (regular fs) l.
Proof.
  induction l as [|p l IH]; simpl.
  - split; [constructor|reflexivity].
  - destruct (fs p) as [| |content] eqn:Hp.
    + split; [discriminate|]. intros H. inversion H as [|? ? [c Hc] _].
      congruence.
    + split; [discriminate|]. intros H. inversion H as [|? ? [c Hc] _].
      congruence.
    + rewrite IH. split.
      * intros H. constructor; [now exists content|exact H].
      * intros H. now inversion H.
Qed.

Lemma normalize_attachments_of (args : Cli.Args) :
  normalize (attachments (Cli.request_of args)) = Cli.arg_attachments args.
Proof.
  unfold Cli.request_of, Cli.attachments_of. cbn [attachments].
  destruct (Cli.arg_attachments args); reflexivity.
Qed.

(** With or without [--ymail], the call is the same. *)
Lemma call_client_send_email (client : Config.EmailConfig) (args : Cli.Args) :
  Cli.call_client lib fs srv client args
  = send_email lib client fs srv (Cli.request_of args).
Proof.
  unfold Cli.call_client.
  destruct (Cli.arg_ymail args); [|reflexivity].
  destruct (Cli.arg_to args) as [|a [|b l]] eqn:Hto; try reflexivity.
  unfold send_email_to_ymail.
  apply (send_email_to_list lib client fs srv (Cli.request_of args) (Str a)).
  cbn [Cli.request_of to to_list]. now rewrite Hto.
Qed.

Lemma MailClient_new_config (client : Config.EmailConfig) :
  MailClient_new getenv parse_int = inr client ->
  EmailConfig_init getenv parse_int = inr client
  /\ Config.is_configured client = true.
Proof.
  unfold MailClient_new.
  destruct (EmailConfig_init getenv parse_int) as [e|config]; [discriminate|].
  intros H.
  destruct (MailClient_init_cases config)
    as [(E & H1 & H2 & _)|[(E & _)|(E & _)]]; rewrite E in H; try discriminate.
  injection H as <-. split; [reflexivity|].
  unfold Config.is_configured.
  destruct (Config.gmail_address config); [contradiction|].
  destruct (Config.gmail_password config); [contradiction|reflexivity].
Qed.

(** [main] by cases: it stops before the call of the client, with status 1
    and nothing on the network, or it makes the call and reports on it. *)
Lemma main_cases (args : Cli.Args) :
  (fst (Cli.main lib getenv parse_int fs srv args) = 1%Z
   /\ Cli.network (snd (Cli.main lib getenv parse_int fs srv args)) = []
   /\ ((forall client, MailClient_new getenv parse_int <> inr client)
       \/ ~ Forall (regular fs) (Cli.arg_attachments args)
       \/ PyStr.truthy_opt (Cli.arg_body args)
          || PyStr.truthy_opt (Cli.arg_html args) = false))
  \/ (exists client b,
         MailClient_new getenv parse_int = inr client
         /\ Forall (regular fs) (Cli.arg_attachments args)
         /\ PyStr.truthy_opt (Cli.arg_body args)
            || PyStr.truthy_opt (Cli.arg_html args) = true
         /\ fst (send_email lib client fs srv (Cli.request_of args)) = Return b
         /\ fst (Cli.main lib getenv parse_int fs srv args)
            = (if b then 0%Z else 1%Z)
         /\ Cli.network (snd (Cli.main lib getenv parse_int fs srv args))
            = net_events
                (snd (send_email lib client fs srv (Cli.request_of args)))).
Proof.
  unfold Cli.main, MailClient_new.
  destruct (EmailConfig_init getenv parse_int) as [e|config] eqn:Hcfg.
  - left. destruct e; (split; [reflexivity|]); (split; [reflexivity|]);
      left; discriminate.
  - destruct (Config.is_configured config) eqn:Hic; cbn [negb].
    2:{ left. split; [reflexivity|]. split; [reflexivity|]. left.
        intros client H.
        destruct (MailClient_init_cases config)
          as [(_ & H1 & H2 & _)|[(E & _)|(E & _)]]; try congruence.
        unfold Config.is_configured in Hic.
        destruct (Config.gmail_address config); [contradiction|].
        destruct (Config.gmail_password config); [contradiction|discriminate]. }
    destruct (MailClient_init config) as [e|client] eqn:Hinit.
    + left. destruct e; cbn [Cli.except_clauses fst snd];
        (split; [reflexivity|]);
        (split; [|left; discriminate]);
        rewrite network_app, network_init_errors; reflexivity.
    + destruct (Cli.check_attachments fs (Cli.arg_attachments args))
        as [refusal|] eqn:Hchk.
      * left. split; [reflexivity|]. split; [reflexivity|]. right; left.
        intros H. apply check_attachments_none in H. congruence.
      * apply check_attachments_none in Hchk.
        assert (Hfound : Cli.network
                           match Cli.arg_attachments args with
                           | [] => []
                           | _ :: _ =>
                               [Cli.Out (Cli.FoundAttachments
                                           (Cli.arg_attachments args))]
                           end = [])
          by (destruct (Cli.arg_attachments args); reflexivity).
        destruct (PyStr.truthy_opt (Cli.arg_body args)
                  || PyStr.truthy_opt (Cli.arg_html args)) eqn:Hb.
        2:{ apply orb_false_elim in Hb as [-> ->]. cbn [negb andb].
            left. split; [reflexivity|].
            split; [|right; right; reflexivity].
            cbn [snd]. rewrite network_app.
            destruct (Cli.arg_attachments args); reflexivity. }
        assert (Hgo : negb (PyStr.truthy_opt (Cli.arg_body args))
                      && negb (PyStr.truthy_opt (Cli.arg_html args)) = false)
          by (destruct (PyStr.truthy_opt (Cli.arg_body args)),
                (PyStr.truthy_opt (Cli.arg_html args)); auto; discriminate).
        rewrite Hgo, call_client_send_email. right.
        assert (Hret : exists b,
                   fst (send_email lib client fs srv (Cli.request_of args))
                   = Return b).
        { destruct (send_email_phases lib client fs srv (Cli.request_of args))
            as [(Hf & _)|(msg & _ & Hd)]; [now exists false|].
          rewrite Hd.
          exact (proj1 (deliver_cases client srv (Cli.request_of args) msg
                          (recipients (Cli.request_of args)))). }
        destruct Hret as [b Hret]. exists client, b.
        split; [reflexivity|]. split; [exact Hchk|]. split; [reflexivity|].
        destruct (send_email lib client fs srv (Cli.request_of args))
          as [outcome events].
        cbn [fst snd] in *. subst outcome. split; [reflexivity|].
        destruct b; cbn [fst snd]; (split; [reflexivity|]);
          rewrite !network_app, network_summary, network_sent;
          destruct (Cli.arg_attachments args); cbn;
          now rewrite app_nil_r.
Qed.

End CommandLine.

(** What a call that returns [True] needed. *)
Lemma send_email_true_needs (lib : Library) (cfg : Config.EmailConfig)
      (fs : string -> fs_entry) (srv : Server) (req : SendRequest) :
  fst (send_email lib cfg fs srv req) = Return true ->
  PyStr.truthy_opt (body req) || PyStr.truthy_opt (body_html req) = true
  /\ Forall (regular fs) (normalize (attachments req)).
Proof.
  intros H.
  destruct (send_email_phases lib cfg fs srv req)
    as [(Hf & _)|(msg & E & _)]; [congruence|].
  destruct (proj1 (compose_finishes_iff lib cfg fs req)
                  (ex_intro _ msg E)) as [Hb Hall].
  split; [exact Hb|]. exact (attachable_regular Hall).
Qed.

(** Once the arguments are parsed, the exit status is 0 or 1, and it is 0
    exactly when the client could be built from the environment and its
    call, for the request made of the arguments, returned [True]: the
    checks [main] makes itself before the call never change the status. *)
Lemma main_exit_status (lib : Library) (getenv : string -> option string)
        (parse_int : string -> option Z) (fs : string -> fs_entry)
        (srv : Server) (args : Cli.Args) :
  (fst (Cli.main lib getenv parse_int fs srv args) = 0%Z
   \/ fst (Cli.main lib getenv parse_int fs srv args) = 1%Z)
  /\ (fst (Cli.main lib getenv parse_int fs srv args) = 0%Z <->
      exists client,
        MailClient_new getenv parse_int = inr client
        /\ fst (send_email lib client fs srv (Cli.request_of args))
           = Return true).
Proof.
  destruct (main_cases lib getenv parse_int fs srv args)
    as [(H1 & _ & Hwhy)|(client & b & Hc & Hreg & Hb & Hret & Hst & _)].
  - split; [now right|]. rewrite H1. split; [discriminate|].
    intros (client & Hc & Htrue). exfalso.
    destruct (send_email_true_needs _ _ _ _ _ Htrue) as [Hb Hreg].
    rewrite normalize_attachments_of in Hreg.
    destruct Hwhy as [H|[H|H]].
    + exact (H client Hc).
    + exact (H Hreg).
    + cbn [Cli.request_of body body_html] in Hb. congruence.
  - rewrite Hst. split; [destruct b; auto|]. split.
    + intros H0. exists client. split; [exact Hc|].
      destruct b; [exact Hret|discriminate].
    + intros (client' & Hc' & Htrue).
      assert (client' = client) by congruence. subst client'.
      rewrite Hret in Htrue. now injection Htrue as ->.
Qed.


(** X17. The command line stops with status 1 before anything goes on the
    network when the client cannot be built from the environment, when an
    attachment is not an existing regular file, or when neither [--body]
    nor [--html] has text. *)
Theorem main_stops_before_network (lib : Library)
        (getenv : string -> option string) (parse_int : string -> option Z)
        (fs : string -> fs_entry) (srv : Server) (args : Cli.Args) :
  (forall client, MailClient_new getenv parse_int <> inr client)
  \/ ~ Forall (regular fs) (Cli.arg_attachments args)
  \/ PyStr.truthy_opt (Cli.arg_body args)
     || PyStr.truthy_opt (Cli.arg_html args) = false ->
  fst (Cli.main lib getenv parse_int fs srv args) = 1%Z
  /\ Cli.network (snd (Cli.main lib getenv parse_int fs srv args)) = [].
Proof.
  intros Hbad.
  destruct (main_cases lib getenv parse_int fs srv args)
    as [(H1 & H2 & _)|(client & b & Hc & Hreg & Hb & _)]; [now split|].
  exfalso. destruct Hbad as [H|[H|H]].
  - exact (H client Hc).
  - exact (H Hreg).
  - congruence.
Qed.

Lemma main_stops_before_network_witness :
  fst (Cli.main Sample.lib Sample2.getenv Sample2.parse_int Sample.fs
         Sample.server_ok (Sample2.args (Some "hello") None ["data"] false))
  = 1%Z
  /\ Cli.network
       (snd (Cli.main Sample.lib Sample2.getenv Sample2.parse_int Sample.fs
               Sample.server_ok
               (Sample2.args (Some "hello") None ["data"] false)))
     = [].
Proof.
  apply main_stops_before_network. right; left.
  intros H. inversion H as [|? ? [content Hc] _]. vm_compute in Hc.
  discriminate.
Defined.


(** X19. One recipient given as a string, as a list of one string, or
    through [send_email_to_ymail] makes the same call: the same outcome,
    the same message with the address as its [To] header, the same calls on
    the network. *)
Theorem single_recipient_forms_agree (lib : Library)
        (cfg : Config.EmailConfig) (fs : string -> fs_entry) (srv : Server)
        (req : SendRequest) (address : string) :
  send_email_to_ymail lib cfg fs srv address req
  = send_email lib cfg fs srv (with_to (Lst [address]) req)
  /\ send_email lib cfg fs srv (with_to (Str address) req)
     = send_email lib cfg fs srv (with_to (Lst [address]) req)
  /\ forall msg rcpts,
      In (msg, rcpts)
         (sent (snd (send_email_to_ymail lib cfg fs srv address req))) ->
      nth_error (headers_of msg) 2 = Some ("To", address).
Proof.
  assert (E : send_email lib cfg fs srv (with_to (Str address) req)
              = send_email lib cfg fs srv (with_to (Lst [address]) req)).
  { exact (send_email_to_list lib cfg fs srv (with_to (Lst [address]) req)
                              (Str address) eq_refl). }
  split; [exact E|]. split; [exact E|].
  intros msg rcpts H. unfold send_email_to_ymail in H.
  apply sent_is_composed in H.
  apply compose_next in H as (_ & _ & _ & _ & Hh & _).
  rewrite Hh. reflexivity.
Qed.

Lemma single_recipient_forms_agree_witness :
  nth_error
    (headers_of
       (Sample.message_of
          (compose Sample.lib Sample.cfg Sample.fs
             (with_to (Str "y@yahoo.com")
                      (Sample.request (Some "hello") None None))))) 2
  = Some ("To", "y@yahoo.com").
Proof.
  refine (proj2 (proj2 (@single_recipient_forms_agree Sample.lib Sample.cfg
                          Sample.fs Sample.server_ok
                          (Sample.request (Some "hello") None None)
                          "y@yahoo.com")) _
                ["y@yahoo.com"; "c@x.com"; "b@x.com"] _).
  vm_compute. left. reflexivity.
Defined.
